(** * Floor-plan generator: a shallow embedding of [floor_plan_generator.py]

    The development follows the Python source method by method:
    the room inventory builder ([_add_bedrooms] ... [_add_circulation_spaces]),
    the dimension calculator ([_calculate_room_dimensions]), the packer
    ([_arrange_rooms]) and the footprint query ([get_house_dimensions]).

    Numbers.  Every area of the program ([room_sizes], [total_sqft],
    [garage_cars], [bedrooms]) is a Python [int] and is a [Z] here.  Python
    [float]s are modelled by the exact value they approximate: a rational
    ([Q]), or a rational multiple of a square root ([surd]) for the results of
    [math.sqrt].  [int(...)] truncates toward zero.  The theorems are about
    this exact arithmetic; the rounding of IEEE doubles and the
    [OverflowError] of ints beyond their range are not part of it.

    Doubles.  Module [Binary64] evaluates the same numeric expressions in
    binary64, and the last section compares the two: they agree on every area
    of the catalog and on garages of up to 734 cars.  They part where the
    exact value under [int(...)] is an integer, which the double may miss by
    one unit in the last place: first at a garage of 735 cars, whose exact
    width is 106680 and whose double width is 106679.

    Errors.  [math.sqrt] of a negative number raises [ValueError] and a
    division by zero raises [ZeroDivisionError]; fallible code returns a
    [result].

    Objects.  [self.rooms] is a list of mutable [Room] objects; it is the
    store, a [list Room.t] read with [!!] and written with [<[i:=r]>].  The
    [sorted_rooms] list of the packer holds references to the same objects and
    is a list of indices into the store. *)

From Stdlib Require Import ZArith QArith Qround Lia String Ascii SpecFloat.
From stdpp Require Import base list sorting gmap strings pretty.

Open Scope string_scope.
Open Scope list_scope.
Open Scope Z_scope.

(** ** Exceptions *)

Inductive exn : Set := ZeroDivisionError | ValueError | OverflowError.

Inductive result (A : Type) : Type :=
| Ok (a : A)
| Raise (e : exn).
Arguments Ok {A} a.
Arguments Raise {A} e.

#[global] Instance result_bind : MBind result :=
  λ A B k m, match m with
             | Ok a => k a
             | Raise e => Raise e
             end.

(** [for x in l: f(x)] where the body may raise and rebinds the element. *)
Fixpoint for_each {A : Type} (f : A → result A) (l : list A) : result (list A) :=
  match l with
  | [] => Ok []
  | a :: l' => a' ← f a; r ← for_each f l'; Ok (a' :: r)
  end.

(** ** Python numbers *)

Definition Qlt_bool (a b : Q) : bool := negb (Qle_bool b a).

(** [int(q)] on a float: truncation toward zero. *)
Definition py_int (q : Q) : Z := Z.quot (Qnum q) (Z.pos (Qden q)).

(** [q % 1]: the result has the sign of the divisor, so it lies in [0, 1). *)
Definition py_mod1 (q : Q) : Q := (q - inject_Z (Qfloor q))%Q.

(** [a / b] on numbers (true division). *)
Definition py_div (a b : Q) : result Q :=
  if Qeq_bool b 0 then Raise ZeroDivisionError else Ok (a / b)%Q.

(** The value [coef * sqrt rad], with [0 <= rad]. *)
Record surd : Set := Surd { coef : Q; rad : Q }.

(** [math.sqrt(q)] *)
Definition math_sqrt (q : Q) : result surd :=
  if Qlt_bool q 0 then Raise ValueError else Ok (Surd 1 q).

(** [c * s] and [s * c] for a float or an int [c]. *)
Definition surd_mul (c : Q) (s : surd) : surd := Surd (c * coef s) (rad s).

(** [int(s)]: [floor (c * sqrt q) = isqrt (floor (c² q))] for [0 <= c], and
    truncation mirrors it for a negative [c]. *)
Definition int_surd (s : surd) : Z :=
  let m := Z.sqrt (Qfloor (coef s * coef s * rad s)) in
  if Qlt_bool (coef s) 0 then - m else m.

(** ** Python strings *)

Definition is_lower (c : ascii) : bool :=
  let n := N_of_ascii c in (97 <=? n)%N && (n <=? 122)%N.
Definition is_upper (c : ascii) : bool :=
  let n := N_of_ascii c in (65 <=? n)%N && (n <=? 90)%N.
Definition to_upper (c : ascii) : ascii :=
  if is_lower c then ascii_of_N (N_of_ascii c - 32) else c.
Definition to_lower (c : ascii) : ascii :=
  if is_upper c then ascii_of_N (N_of_ascii c + 32) else c.

(** [s.replace(a, b)] for single characters. *)
Fixpoint replace (a b : ascii) (s : string) : string :=
  match s with
  | EmptyString => EmptyString
  | String c s' => String (if Ascii.eqb c a then b else c) (replace a b s')
  end.

(** [s.title()]: a cased character is upper-cased when the previous
    character is not cased, and lower-cased otherwise. *)
Fixpoint title_from (previous_is_cased : bool) (s : string) : string :=
  match s with
  | EmptyString => EmptyString
  | String c s' =>
      if is_lower c then
        String (if previous_is_cased then c else to_upper c) (title_from true s')
      else if is_upper c then
        String (if previous_is_cased then to_lower c else c) (title_from true s')
      else String c (title_from false s')
  end.
Definition title : string → string := title_from false.

(** [x in l] for a list of strings. *)
Definition str_in (s : string) (l : list string) : bool :=
  existsb (String.eqb s) l.

(** ** Data model *)

Module HouseRequirements.
Record t : Type := Build {
  total_sqft : Z;
  style : string;
  bedrooms : Z;
  bathrooms : Q;
  garage_cars : Z;
  has_attic : bool;
  has_basement : bool;
  special_rooms : list string;
  bathroom_types : list string;
  stories : Z
}.

(** [HouseRequirements.__init__] *)
Definition init : t :=
  Build 2000 "Ranch" 3 2 2 false false [] [] 1.
End HouseRequirements.

Module Room.
Record t : Type := Build {
  name : string;
  sqft : Z;
  room_type : string;
  x : Z;
  y : Z;
  width : Z;
  length : Z;
  doors : list string;
  windows : Z
}.

(** [Room.__init__] *)
Definition init (name : string) (sqft : Z) (room_type : string) : t :=
  Build name sqft room_type 0 0 0 0 [] 0.

Definition set_windows (n : Z) (r : t) : t :=
  Build (name r) (sqft r) (room_type r) (x r) (y r) (width r) (length r)
        (doors r) n.
Definition set_dimensions (w l : Z) (r : t) : t :=
  Build (name r) (sqft r) (room_type r) (x r) (y r) w l (doors r) (windows r).
Definition set_position (px py : Z) (r : t) : t :=
  Build (name r) (sqft r) (room_type r) px py (width r) (length r)
        (doors r) (windows r).
End Room.

(** Room size guidelines (in square feet). *)
Definition room_sizes : gmap string Z :=
  list_to_map
    [ ("master_bedroom", 300); ("bedroom", 150); ("bathroom", 40);
      ("jack_and_jill_bathroom", 80); ("master_bathroom", 100);
      ("half_bathroom", 25); ("kitchen", 200); ("living_room", 300);
      ("dining_room", 150); ("garage", 250); ("gameroom", 250);
      ("den", 150); ("office", 120); ("study", 120); ("library", 150);
      ("media_room", 200); ("home_theater", 300); ("gym", 200);
      ("mudroom", 50); ("laundry", 50); ("pantry", 30); ("hallway", 50);
      ("foyer", 80) ].

(** [self.room_sizes[k]] for a key that the source writes as a literal. *)
Definition size_of (k : string) : Z := default 0 (room_sizes !! k).

Module FloorPlanGenerator.
Record t : Type := Build {
  requirements : HouseRequirements.t;
  rooms : list Room.t
}.

(** [FloorPlanGenerator.__init__] *)
Definition init (requirements : HouseRequirements.t) : t :=
  Build requirements [].

Definition set_rooms (l : list Room.t) (self : t) : t :=
  Build (requirements self) l.
(** [self.rooms.append(r)] *)
Definition append (r : Room.t) (self : t) : t :=
  set_rooms (rooms self ++ [r]) self.
(** [for r in l: self.rooms.append(r)] *)
Definition extend (l : list Room.t) (self : t) : t :=
  set_rooms (rooms self ++ l) self.
End FloorPlanGenerator.

Import FloorPlanGenerator.

(** ** Room inventory builder *)

Definition new_room (name : string) (sqft : Z) (room_type : string)
    (windows : Z) : Room.t :=
  Room.set_windows windows (Room.init name sqft room_type).

Definition _add_bedrooms (self : t) : t :=
  let master :=
    new_room "Master Bedroom" (size_of "master_bedroom") "master_bedroom" 2 in
  let self := append master self in
  extend
    (map (λ i, new_room ("Bedroom " +:+ pretty (i + 2)) (size_of "bedroom")
                        "bedroom" 1)
         (seqZ 0 (HouseRequirements.bedrooms (requirements self) - 1)))
    self.

Definition _add_bathrooms (self : t) : t :=
  let req := requirements self in
  let bathroom_count := py_int (HouseRequirements.bathrooms req) in
  let half_bath_count :=
    if Qle_bool (1 # 2) (py_mod1 (HouseRequirements.bathrooms req))
    then 1 else 0 in
  let master_bath :=
    new_room "Master Bathroom" (size_of "master_bathroom") "master_bathroom" 1 in
  let self := append master_bath self in
  let bathroom_count := bathroom_count - 1 in
  let jnj :=
    str_in "jack_and_jill" (HouseRequirements.bathroom_types req)
    && (0 <? bathroom_count) in
  let self :=
    if jnj then
      append (new_room "Jack and Jill Bathroom"
                (size_of "jack_and_jill_bathroom") "jack_and_jill_bathroom" 1)
             self
    else self in
  let bathroom_count := if jnj then bathroom_count - 1 else bathroom_count in
  let self :=
    extend
      (map (λ i, new_room ("Bathroom " +:+ pretty (i + 2)) (size_of "bathroom")
                          "bathroom" 1)
           (seqZ 0 bathroom_count))
      self in
  extend
    (map (λ _, new_room "Powder Room" (size_of "half_bathroom")
                        "half_bathroom" 0)
         (seqZ 0 half_bath_count))
    self.

Definition _add_kitchen (self : t) : t :=
  let self := append (new_room "Kitchen" (size_of "kitchen") "kitchen" 2) self in
  append (new_room "Dining Room" (size_of "dining_room") "dining_room" 1) self.

Definition _add_living_areas (self : t) : t :=
  append (new_room "Living Room" (size_of "living_room") "living_room" 3) self.

Definition _add_garage (self : t) : t :=
  let cars := HouseRequirements.garage_cars (requirements self) in
  if 0 <? cars then
    let garage_size := size_of "garage" * cars in
    append (new_room (pretty cars +:+ " Car Garage") garage_size "garage" 0) self
  else self.

Definition _add_special_rooms (self : t) : t :=
  foldl
    (λ self room_type,
       match room_sizes !! room_type with
       | Some size =>
           let room_name := title (replace "_" " " room_type) in
           append (new_room room_name size room_type 1) self
       | None => self
       end)
    self
    (HouseRequirements.special_rooms (requirements self)).

Definition _add_circulation_spaces (self : t) : t :=
  let self := append (new_room "Foyer" (size_of "foyer") "foyer" 0) self in
  if 3 <=? HouseRequirements.bedrooms (requirements self) then
    append (new_room "Hallway" (size_of "hallway") "hallway" 0) self
  else self.

(** ** Dimension calculator *)

(** 1 sqft = 92903.04 mm² *)
Definition sqft_to_mm2 : Q := 9290304 # 100.

Definition aspect_ratio (room_type : string) : Q :=
  if String.eqb room_type "garage" then 15 # 10
  else if str_in room_type ["hallway"; "mudroom"] then 3
  else if str_in room_type ["master_bedroom"; "living_room"] then 12 # 10
  else 13 # 10.

Definition area_mm2 (room : Room.t) : Q :=
  (inject_Z (Room.sqft room) * sqft_to_mm2)%Q.

(** [int(math.sqrt(area_mm2 / aspect_ratio))] *)
Definition room_width (room : Room.t) : result Z :=
  q ← py_div (area_mm2 room) (aspect_ratio (Room.room_type room));
  s ← math_sqrt q;
  Ok (int_surd s).

(** [int(area_mm2 / room.width)] *)
Definition room_length (room : Room.t) (width : Z) : result Z :=
  q ← py_div (area_mm2 room) (inject_Z width);
  Ok (py_int q).

(** The body of the loop of [_calculate_room_dimensions]. *)
Definition calculate_room (room : Room.t) : result Room.t :=
  width ← room_width room;
  length ← room_length room width;
  Ok (Room.set_dimensions width length room).

Definition _calculate_room_dimensions (self : t) : result t :=
  l ← for_each calculate_room (rooms self);
  Ok (set_rooms l self).

(** ** Packer *)

(** [sorted(l, key=key, reverse=True)]: a stable sort, descending by key;
    elements with equal keys keep their order in [l]. *)
Fixpoint insert_desc {A : Type} (key : A → Z) (a : A) (l : list A) : list A :=
  match l with
  | [] => [a]
  | b :: l' => if key b <=? key a then a :: l else b :: insert_desc key a l'
  end.

Fixpoint sorted_desc {A : Type} (key : A → Z) (l : list A) : list A :=
  match l with
  | [] => []
  | a :: l' => insert_desc key a (sorted_desc key l')
  end.

(** [sum(r.sqft for r in rooms)] *)
Definition sum_sqft (rooms : list Room.t) : Z :=
  foldr (λ r acc, Room.sqft r + acc) 0 rooms.

(** The key of the object that index [i] of the store refers to. *)
Definition sqft_at (rooms : list Room.t) (i : nat) : Z :=
  from_option Room.sqft 0 (rooms !! i).

(** [room.width = int(room.width * scale_factor)], and the same for length. *)
Definition scale_room (scale_factor : surd) (room : Room.t) : Room.t :=
  Room.set_dimensions
    (int_surd (surd_mul (inject_Z (Room.width room)) scale_factor))
    (int_surd (surd_mul (inject_Z (Room.length room)) scale_factor))
    room.

(** The three cursors of the row-based layout. *)
Record cursor : Set := Cursor { current_x : Z; current_y : Z; row_height : Z }.

(** One iteration of the layout loop on the room that [i] refers to. *)
Definition place (max_width : Z) (c : cursor) (room : Room.t)
    : cursor * Room.t :=
  let c :=
    if (max_width <? current_x c + Room.length room) && (0 <? current_x c)
    then Cursor 0 (current_y c + (row_height c + 200)) 0
    else c in
  let room := Room.set_position (current_x c) (current_y c) room in
  (Cursor (current_x c + (Room.length room + 200)) (current_y c)
          (Z.max (row_height c) (Room.width room)),
   room).

Fixpoint layout (max_width : Z) (sorted_rooms : list nat) (c : cursor)
    (rooms : list Room.t) : list Room.t :=
  match sorted_rooms with
  | [] => rooms
  | i :: rest =>
      match rooms !! i with
      | Some room =>
          let '(c', room') := place max_width c room in
          layout max_width rest c' (<[i := room']> rooms)
      | None => layout max_width rest c rooms
      end
  end.

Definition _arrange_rooms (self : t) : result t :=
  match rooms self with
  | [] => Ok self
  | _ :: _ =>
      let total_sqft := HouseRequirements.total_sqft (requirements self) in
      let sorted_rooms :=
        sorted_desc (sqft_at (rooms self)) (seq 0 (length (rooms self))) in
      let total_area := sum_sqft (rooms self) in
      self ← (if total_area <? total_sqft then
                q ← py_div (inject_Z total_sqft) (inject_Z total_area);
                scale_factor ← math_sqrt q;
                Ok (set_rooms (map (scale_room scale_factor) (rooms self)) self)
              else Ok self);
      s ← math_sqrt (inject_Z total_sqft * sqft_to_mm2)%Q;
      let max_width := int_surd (surd_mul (13 # 10) s) in
      Ok (set_rooms (layout max_width sorted_rooms (Cursor 0 0 0) (rooms self))
                    self)
  end.

(** ** Facade *)

Definition build_inventory (self : t) : t :=
  let self := set_rooms [] self in
  let self := _add_bedrooms self in
  let self := _add_bathrooms self in
  let self := _add_kitchen self in
  let self := _add_living_areas self in
  let self := _add_garage self in
  let self := _add_special_rooms self in
  _add_circulation_spaces self.

(** Returns [self.rooms] and the generator after the call. *)
Definition generate_floor_plan (self : t) : result (list Room.t * t) :=
  let self := build_inventory self in
  self ← _calculate_room_dimensions self;
  self ← _arrange_rooms self;
  Ok (rooms self, self).

(** [max(it)] for a non-empty iterable, given as head and tail. *)
Definition py_max (a : Z) (l : list Z) : Z := foldl Z.max a l.

Definition get_house_dimensions (self : t) : Z * Z :=
  match rooms self with
  | [] => (10000, 8000)
  | r :: l =>
      let max_x :=
        py_max (Room.x r + Room.length r)
               (map (λ r, Room.x r + Room.length r) l) in
      let max_y :=
        py_max (Room.y r + Room.width r)
               (map (λ r, Room.y r + Room.width r) l) in
      (max_x + 1000, max_y + 1000)
  end.

(** ** Vocabulary of the statements *)

(** Number of rooms of category [rt] in [l]. *)
Definition count_type (rt : string) (l : list Room.t) : Z :=
  Z.of_nat (length (filter (λ r, Room.room_type r = rt) l)).

(** Requirements that differ from the defaults in the bathrooms only. *)
Definition req_bathrooms (b : Q) (types : list string) : HouseRequirements.t :=
  HouseRequirements.Build 2000 "Ranch" 3 b 2 false false [] types 1.

(** Name, category and window count of the rooms of a list. *)
Definition summary (l : list Room.t) : list (string * string * Z) :=
  map (λ r, (Room.name r, Room.room_type r, Room.windows r)) l.

(** [m] is the maximum of the list [l]. *)
Definition is_max (m : Z) (l : list Z) : Prop := m ∈ l ∧ ∀ v, v ∈ l → v ≤ m.

(** [self'] is [self] with the rooms [added] appended. *)
Definition appends (self self' : t) (added : list Room.t) : Prop :=
  requirements self' = requirements self ∧ rooms self' = rooms self ++ added.

Definition positive_area (r : Room.t) : Prop := 0 < Room.sqft r.

(** The six rooms that every inventory holds. *)
Definition master_bedroom : Room.t :=
  new_room "Master Bedroom" 300 "master_bedroom" 2.
Definition master_bathroom : Room.t :=
  new_room "Master Bathroom" 100 "master_bathroom" 1.
Definition kitchen : Room.t := new_room "Kitchen" 200 "kitchen" 2.
Definition dining_room : Room.t := new_room "Dining Room" 150 "dining_room" 1.
Definition living_room : Room.t := new_room "Living Room" 300 "living_room" 3.
Definition foyer : Room.t := new_room "Foyer" 80 "foyer" 0.

#[global] Instance room_inhabited : Inhabited Room.t :=
  populate (Room.init "" 0 "").

#[global] Instance room_eq_dec : EqDecision Room.t.
Proof. solve_decision. Defined.

(** The layout loop run on the rooms themselves, in placement order. *)
Fixpoint layout_seq (max_width : Z) (c : cursor) (l : list Room.t)
    : list Room.t :=
  match l with
  | [] => []
  | room :: l' =>
      let '(c', room') := place max_width c room in
      room' :: layout_seq max_width c' l'
  end.

(** Two rooms of one row (same [y]) have disjoint extents [x, x + length). *)
Definition no_overlap (a b : Room.t) : Prop :=
  Room.y a = Room.y b →
  Room.x a + Room.length a ≤ Room.x b ∨ Room.x b + Room.length b ≤ Room.x a.

(** Descending and strictly descending keys. *)
Definition desc {A : Type} (key : A → Z) : relation A :=
  λ a b, key b ≤ key a.
Definition strict_desc {A : Type} (key : A → Z) : relation A :=
  λ a b, key b < key a.

(** A room with its position erased: what the layout loop leaves alone. *)
Definition unplaced (r : Room.t) : Room.t := Room.set_position 0 0 r.

(** The cursor never moves left of the origin or above the first row. *)
Definition cursor_ok (c : cursor) : Prop :=
  0 ≤ current_x c ∧ 0 ≤ current_y c ∧ 0 ≤ row_height c.

(** Where a room placed from cursor [c] on may lie. *)
Definition placed_after (c : cursor) (r : Room.t) : Prop :=
  0 ≤ Room.x r ∧ current_y c ≤ Room.y r
  ∧ (Room.y r = current_y c → current_x c ≤ Room.x r).

(** What [_arrange_rooms] does to one room before the layout loop: the
    scaling by [sqrt (total_sqft / total_area)] when the requested area is the
    larger one, and nothing otherwise. *)
Definition scaling (total_sqft total_area : Z) (room : Room.t) : Room.t :=
  if total_area <? total_sqft
  then scale_room (Surd 1 (inject_Z total_sqft / inject_Z total_area)) room
  else room.

(** [int(math.sqrt(total_sqft * 92903.04) * 1.3)] *)
Definition max_row_width (total_sqft : Z) : Z :=
  int_surd (surd_mul (13 # 10) (Surd 1 (inject_Z total_sqft * sqft_to_mm2))).

Definition total_sqft_of (self : t) : Z :=
  HouseRequirements.total_sqft (requirements self).

(** [w' = floor (w * sqrt (t / s))] for [0 <= w] and [0 < s], stated without
    the square root. *)
Definition floor_scaled (t s w w' : Z) : Prop :=
  0 ≤ w' ∧ w' * w' * s ≤ w * w * t < (w' + 1) * (w' + 1) * s.


(** A ten-car garage (2500 sqft) after the dimension calculator, in a house
    of 3000 requested sqft. *)
Definition garage10 : Room.t :=
  Room.set_dimensions 12443 18665 (new_room "10 Car Garage" 2500 "garage" 0).
Definition req3000 : HouseRequirements.t :=
  HouseRequirements.Build 3000 "Ranch" 1 1 10 false false [] [] 1.

(** Two rooms of equal area (150 sqft) after the dimension calculator. *)
Definition den : Room.t :=
  Room.set_dimensions 3274 4256 (new_room "Den" 150 "den" 1).
Definition library : Room.t :=
  Room.set_dimensions 3274 4256 (new_room "Library" 150 "library" 1).

(** The ten-car garage after the packer: scaled by [sqrt (3000 / 2500)] and
    placed at the origin. *)
Definition garage10_packed : Room.t :=
  Room.set_dimensions 13630 20446 garage10.


(** The whole pipeline on a requirements record: build the inventory,
    calculate the dimensions, pack, and query the footprint. *)
Definition pipeline (req : HouseRequirements.t)
    : result (list Room.t * (Z * Z)) :=
  out ← generate_floor_plan (init req);
  Ok (out.1, get_house_dimensions out.2).

(** Requirements with negative counts and a zero area. *)
Definition req_negative : HouseRequirements.t :=
  HouseRequirements.Build 0 "Ranch" (-2) (-3 # 2) (-1) false false
                          ["attic"; "gym"] [] 1.


(** A room of target area 0. *)
Definition closet : Room.t := new_room "Closet" 0 "closet" 0.




(** ** The numeric kernels in IEEE doubles

    The same expressions evaluated as Python evaluates them, in binary64 with
    rounding to nearest even, on the Standard Library's [SpecFloat].  They
    serve to compare the exact model with the doubles on the inputs that the
    program meets. *)

Module Binary64.
Definition prec : Z := 53.
Definition emax : Z := 1024.

(** [float(n)] for an int: correctly rounded, [OverflowError] out of range. *)
Definition of_int (n : Z) : result spec_float :=
  match binary_normalize prec emax n 0 false with
  | S754_infinity _ => Raise OverflowError
  | f => Ok f
  end.

(** The double denoted by the decimal literal [n / d], for [n] and [d] that
    are doubles themselves: the correctly rounded quotient. *)
Definition literal (q : Q) : spec_float :=
  SFdiv prec emax (binary_normalize prec emax (Qnum q) 0 false)
        (binary_normalize prec emax (Z.pos (Qden q)) 0 false).

Definition mul : spec_float → spec_float → spec_float := SFmul prec emax.

(** [a / b] *)
Definition div (a b : spec_float) : result spec_float :=
  match b with
  | S754_zero _ => Raise ZeroDivisionError
  | _ => Ok (SFdiv prec emax a b)
  end.

(** [math.sqrt(a)] *)
Definition sqrt (a : spec_float) : result spec_float :=
  if SFltb a (S754_zero false) then Raise ValueError
  else Ok (SFsqrt prec emax a).

(** [int(f)] *)
Definition to_int (f : spec_float) : result Z :=
  match f with
  | S754_zero _ => Ok 0
  | S754_finite s m e =>
      let n := if 0 <=? e then Z.pos m * 2 ^ e else Z.pos m / 2 ^ (- e) in
      Ok (if s then - n else n)
  | S754_infinity _ => Raise OverflowError
  | S754_nan => Raise ValueError
  end.

Definition area_mm2 (room : Room.t) : result spec_float :=
  sqft ← of_int (Room.sqft room);
  Ok (mul sqft (literal sqft_to_mm2)).

Definition room_width (room : Room.t) : result Z :=
  area ← area_mm2 room;
  q ← div area (literal (aspect_ratio (Room.room_type room)));
  s ← sqrt q;
  to_int s.

Definition room_length (room : Room.t) (width : Z) : result Z :=
  area ← area_mm2 room;
  w ← of_int width;
  q ← div area w;
  to_int q.

Definition calculate_room (room : Room.t) : result Room.t :=
  width ← room_width room;
  length ← room_length room width;
  Ok (Room.set_dimensions width length room).

(** [math.sqrt(total_sqft / total_area)], for ints below 2^53. *)
Definition scale_factor (total_sqft total_area : Z) : result spec_float :=
  t ← of_int total_sqft;
  a ← of_int total_area;
  q ← div t a;
  sqrt q.

(** [int(n * scale_factor)] *)
Definition scaled (scale_factor : spec_float) (n : Z) : result Z :=
  f ← of_int n;
  to_int (mul f scale_factor).

(** [int(math.sqrt(total_sqft * 92903.04) * 1.3)] *)
Definition max_row_width (total_sqft : Z) : result Z :=
  t ← of_int total_sqft;
  s ← sqrt (mul t (literal sqft_to_mm2));
  to_int (mul s (literal (13 # 10))).
End Binary64.

(** A garage for [cars] cars, as [_add_garage] emits it. *)
Definition garage (cars : Z) : Room.t :=
  new_room (pretty cars +:+ " Car Garage") (250 * cars) "garage" 0.

(** Width and length of a calculated room. *)
Definition summary_dimensions (r : result Room.t) : result (Z * Z) :=
  room ← r; Ok (Room.width room, Room.length room).

(** The requirements of the example of the source: 3000 sqft, 4 bedrooms,
    4 bathrooms with a jack-and-jill, 3 cars, a gameroom and a den. *)
Definition req_example : HouseRequirements.t :=
  HouseRequirements.Build 3000 "Ranch" 4 4 3 true false ["gameroom"; "den"]
                          ["jack_and_jill"] 1.

(** ** Vocabulary of the further properties *)

(** [s.startswith(p)] *)
Fixpoint starts_with (p s : string) : bool :=
  match p, s with
  | EmptyString, _ => true
  | String a p', String b s' => Ascii.eqb a b && starts_with p' s'
  | String _ _, EmptyString => false
  end.

(** [p in s] for two strings: [p] occurs in [s]. *)
Fixpoint occurs_in (p s : string) : bool :=
  starts_with p s
  || match s with
     | EmptyString => false
     | String _ s' => occurs_in p s'
     end.

(** [sum(1 for r in rooms if f(r))] *)
Definition count_if (f : Room.t → bool) (l : list Room.t) : Z :=
  Z.of_nat (length (filter (λ r, f r = true) l)).

(** The rooms that each step of the builder emits. *)
Definition numbered_bedroom (i : Z) : Room.t :=
  new_room ("Bedroom " +:+ pretty (i + 2)) 150 "bedroom" 1.
Definition bedroom_rooms (req : HouseRequirements.t) : list Room.t :=
  master_bedroom
  :: map numbered_bedroom (seqZ 0 (HouseRequirements.bedrooms req - 1)).

Definition garage_rooms (req : HouseRequirements.t) : list Room.t :=
  if 0 <? HouseRequirements.garage_cars req
  then [garage (HouseRequirements.garage_cars req)] else [].

Definition special_room (tag : string) (size : Z) : Room.t :=
  new_room (title (replace "_" " " tag)) size tag 1.
Definition special_rooms_of (req : HouseRequirements.t) : list Room.t :=
  omap (λ tag, special_room tag <$> room_sizes !! tag)
       (HouseRequirements.special_rooms req).

Definition hallway : Room.t := new_room "Hallway" 50 "hallway" 0.
Definition circulation_rooms (req : HouseRequirements.t) : list Room.t :=
  foyer :: (if 3 <=? HouseRequirements.bedrooms req then [hallway] else []).

(** What the calculator and the packer leave alone: name, target area,
    category, doors and windows. *)
Definition identity (r : Room.t) : Room.t :=
  Room.set_dimensions 0 0 (Room.set_position 0 0 r).

(** Room [a] was placed before room [b]: to its left in the same row with
    200 mm between them, or in a row above with 200 mm between them. *)
Definition precedes (a b : Room.t) : Prop :=
  (Room.y a = Room.y b ∧ Room.x a + Room.length a + 200 ≤ Room.x b)
  ∨ (Room.y a < Room.y b ∧ Room.y a + Room.width a + 200 ≤ Room.y b).

(** Two rooms are 200 mm apart, side by side in a row or in two rows. *)
Definition apart (a b : Room.t) : Prop := precedes a b ∨ precedes b a.

(** Row-major order of the positions. *)
Definition before (a b : Room.t) : Prop :=
  Room.y a < Room.y b ∨ (Room.y a = Room.y b ∧ Room.x a < Room.x b).

Definition jack_and_jill_bathroom : Room.t :=
  new_room "Jack and Jill Bathroom" 80 "jack_and_jill_bathroom" 1.
Definition numbered_bathroom (i : Z) : Room.t :=
  new_room ("Bathroom " +:+ pretty (i + 2)) 40 "bathroom" 1.
Definition powder_room : Room.t :=
  new_room "Powder Room" 25 "half_bathroom" 0.

(** The three numbers that [_add_bathrooms] derives from the requirements:
    whether a jack-and-jill bathroom is emitted, the count of the loop of
    numbered bathrooms, and whether a powder room is emitted. *)
Definition has_jack_and_jill (req : HouseRequirements.t) : bool :=
  str_in "jack_and_jill" (HouseRequirements.bathroom_types req)
  && (0 <? py_int (HouseRequirements.bathrooms req) - 1).
Definition numbered_bathrooms (req : HouseRequirements.t) : Z :=
  if has_jack_and_jill req
  then py_int (HouseRequirements.bathrooms req) - 1 - 1
  else py_int (HouseRequirements.bathrooms req) - 1.
Definition has_powder_room (req : HouseRequirements.t) : bool :=
  Qle_bool (1 # 2) (py_mod1 (HouseRequirements.bathrooms req)).

Definition bathroom_rooms (req : HouseRequirements.t) : list Room.t :=
  [master_bathroom]
  ++ (if has_jack_and_jill req then [jack_and_jill_bathroom] else [])
  ++ map numbered_bathroom (seqZ 0 (numbered_bathrooms req))
  ++ map (λ _, powder_room) (seqZ 0 (if has_powder_room req then 1 else 0)).

(** Whether a tag of [special_rooms] is a key of the catalog. *)
Definition in_catalog (tag : string) : bool :=
  match room_sizes !! tag with Some _ => true | None => false end.

(** Where a room placed from cursor [c] on lies with respect to the rows:
    in the row of the cursor, or below it by the height of that row and the
    gap; and it starts a row or ends within the width bound. *)
Definition in_rows (max_width : Z) (c : cursor) (r : Room.t) : Prop :=
  (Room.y r = current_y c ∨ current_y c + row_height c + 200 ≤ Room.y r)
  ∧ (Room.x r = 0 ∨ Room.x r + Room.length r ≤ max_width).

(** The den, the ten-car garage and the library in a house of 3000 sqft,
    before and after the packer: the garage at the origin, the den and the
    library in the second row. *)
Definition three_rooms : t := Build req3000 [den; garage10; library].
Definition three_rooms_packed : t :=
  Build req3000
    [ Room.set_position 0 13079 (Room.set_dimensions 3388 4405 den);
      Room.set_position 0 0 (Room.set_dimensions 12879 19320 garage10);
      Room.set_position 4605 13079 (Room.set_dimensions 3388 4405 library) ].

(** A full bathroom: master, jack-and-jill or numbered. *)
Definition is_full_bathroom (r : Room.t) : bool :=
  str_in (Room.room_type r)
         ["master_bathroom"; "jack_and_jill_bathroom"; "bathroom"].

(** [sum(self.room_sizes[tag] for tag in tags if tag in self.room_sizes)] *)
Definition catalog_area (tags : list string) : Z :=
  foldr (λ tag acc, default 0 (room_sizes !! tag) + acc) 0 tags.

(** * Properties *)

(** ** Numbers *)


Lemma Qlt_bool_false (a b : Q) : Qlt_bool a b = false ↔ (b <= a)%Q.
Proof.
  unfold Qlt_bool. rewrite negb_false_iff. apply Qle_bool_iff.
Qed.

Lemma py_int_nonneg (q : Q) : (0 <= q)%Q → py_int q = Qfloor q.
Proof.
  destruct q as [n d]. unfold Qle, py_int, Qfloor. simpl. intros H.
  apply Z.quot_div_nonneg; lia.
Qed.

Lemma Qfloor_nonneg (q : Q) : (0 <= q)%Q → 0 ≤ Qfloor q.
Proof.
  intros H. change 0 with (Qfloor 0). by apply Qfloor_resp_le.
Qed.

(** [int_surd] is the floor of [c * sqrt q]: its square is below [c² q] and
    the square of its successor is above. *)
Lemma int_surd_spec (c q : Q) :
  (0 <= c)%Q → (0 <= q)%Q →
  let m := int_surd (Surd c q) in
  0 ≤ m ∧ (inject_Z m * inject_Z m <= c * c * q)%Q
  ∧ (c * c * q < inject_Z (m + 1) * inject_Z (m + 1))%Q.
Proof.
  intros Hc Hq m. subst m. unfold int_surd. cbn [coef rad].
  assert (Hcc : (0 <= c * c * q)%Q).
  { apply Qmult_le_0_compat; [apply Qmult_le_0_compat|]; done. }
  assert (E : Qlt_bool c 0 = false) by by apply Qlt_bool_false.
  rewrite E. set (n := Qfloor (c * c * q)).
  assert (Hn : 0 ≤ n) by by apply Qfloor_nonneg.
  pose proof (Z.sqrt_spec n Hn) as Hs. cbv zeta in Hs.
  pose proof (Z.sqrt_nonneg n) as Hs0.
  pose proof (Qfloor_le (c * c * q)) as Hlo.
  pose proof (Qlt_floor (c * c * q)) as Hhi. fold n in Hlo, Hhi.
  split; [done|]. split.
  - eapply Qle_trans; [|exact Hlo]. rewrite <- inject_Z_mult.
    rewrite <- Zle_Qle. lia.
  - eapply Qlt_le_trans; [exact Hhi|]. rewrite <- inject_Z_mult.
    rewrite <- Zle_Qle. lia.
Qed.

(** ** Dimension calculator *)

Lemma aspect_ratio_cases (rt : string) :
  aspect_ratio rt = 15 # 10 ∨ aspect_ratio rt = 3%Q
  ∨ aspect_ratio rt = 12 # 10 ∨ aspect_ratio rt = 13 # 10.
Proof.
  unfold aspect_ratio.
  destruct (String.eqb rt "garage"); [by left|].
  destruct (str_in rt _); [by right; left|].
  destruct (str_in rt _); [by right; right; left|by right; right; right].
Qed.

Lemma aspect_ratio_bounds (rt : string) :
  (0 < aspect_ratio rt)%Q ∧ (aspect_ratio rt <= 3)%Q.
Proof.
  destruct (aspect_ratio_cases rt) as [E|[E|[E|E]]]; rewrite E;
    split; reflexivity || (by intros ?).
Qed.

Lemma area_mm2_lower (room : Room.t) :
  0 < Room.sqft room → (3 <= area_mm2 room)%Q.
Proof.
  intros H. unfold area_mm2, sqft_to_mm2, Qle. simpl. lia.
Qed.

Lemma Qdiv_le_mult (a b c : Q) : (0 < c)%Q → (a <= b / c)%Q → (a * c <= b)%Q.
Proof.
  intros Hc H.
  assert (E : (b == b / c * c)%Q).
  { field. intros E. rewrite E in Hc. by apply Qlt_irrefl in Hc. }
  rewrite E. apply Qmult_le_compat_r; [done|by apply Qlt_le_weak].
Qed.

Lemma Qdiv_lt_mult (a b c : Q) : (0 < c)%Q → (b / c < a)%Q → (b < a * c)%Q.
Proof.
  intros Hc H.
  assert (E : (b == b / c * c)%Q).
  { field. intros E. rewrite E in Hc. by apply Qlt_irrefl in Hc. }
  rewrite E. by apply Qmult_lt_compat_r.
Qed.

(** The width is the floor of [sqrt (area / aspect)], and it is positive
    as soon as the area is. *)
Lemma room_width_spec (room : Room.t) :
  0 < Room.sqft room →
  ∃ w, room_width room = Ok w ∧ 0 < w
    ∧ (inject_Z w * inject_Z w
       <= area_mm2 room / aspect_ratio (Room.room_type room))%Q
    ∧ (area_mm2 room / aspect_ratio (Room.room_type room)
       < inject_Z (w + 1) * inject_Z (w + 1))%Q.
Proof.
  intros Hs. unfold room_width.
  destruct (aspect_ratio_bounds (Room.room_type room)) as [Hr0 Hr3].
  set (r := aspect_ratio (Room.room_type room)) in *.
  pose proof (area_mm2_lower room Hs) as HA. set (A := area_mm2 room) in *.
  assert (Hq1 : (1 <= A / r)%Q).
  { apply Qle_shift_div_l; [done|]. rewrite Qmult_1_l. by eapply Qle_trans. }
  assert (Hq0 : (0 <= A / r)%Q) by (eapply Qle_trans; [|exact Hq1]; done).
  unfold py_div. destruct (Qeq_bool r 0) eqn:E.
  { apply Qeq_bool_iff in E. rewrite E in Hr0. by apply Qlt_irrefl in Hr0. }
  cbn [mbind result_bind]. unfold math_sqrt.
  assert (E2 : Qlt_bool (A / r) 0 = false) by by apply Qlt_bool_false.
  rewrite E2. cbn [mbind result_bind].
  destruct (int_surd_spec 1 (A / r)) as (Hm0 & Hlo & Hhi); [done|done|].
  set (w := int_surd (Surd 1 (A / r))) in *.
  assert (Eq : (1 * 1 * (A / r) == A / r)%Q) by ring.
  rewrite Eq in Hlo, Hhi.
  exists w. split; [done|]. split; [|done].
  destruct (decide (w = 0)) as [->|]; [|lia].
  exfalso. apply (Qlt_not_le _ _ Hhi). exact Hq1.
Qed.

(** The length is the floor of [area / width]. *)
Lemma room_length_spec (room : Room.t) (w : Z) :
  0 ≤ Room.sqft room → 0 < w →
  ∃ l, room_length room w = Ok l ∧ l = Qfloor (area_mm2 room / inject_Z w)
    ∧ (inject_Z (w * l) <= area_mm2 room)%Q
    ∧ (area_mm2 room - inject_Z (w * l) < inject_Z w)%Q.
Proof.
  intros Hs Hw. unfold room_length, py_div.
  assert (HA : (0 <= area_mm2 room)%Q).
  { unfold area_mm2, sqft_to_mm2, Qle. simpl. lia. }
  set (A := area_mm2 room) in *.
  assert (Hw0 : (0 < inject_Z w)%Q) by (unfold Qlt; simpl; lia).
  destruct (Qeq_bool (inject_Z w) 0) eqn:E.
  { apply Qeq_bool_iff in E. rewrite E in Hw0. by apply Qlt_irrefl in Hw0. }
  cbn [mbind result_bind].
  assert (Hq : (0 <= A / inject_Z w)%Q).
  { apply Qle_shift_div_l; [done|]. by rewrite Qmult_0_l. }
  rewrite (py_int_nonneg _ Hq). eexists. split; [done|]. split; [done|].
  set (l := Qfloor (A / inject_Z w)).
  pose proof (Qfloor_le (A / inject_Z w)) as Hlo.
  pose proof (Qlt_floor (A / inject_Z w)) as Hhi. fold l in Hlo, Hhi.
  apply Qdiv_le_mult in Hlo; [|done]. apply Qdiv_lt_mult in Hhi; [|done].
  rewrite inject_Z_mult. split.
  - by rewrite Qmult_comm.
  - rewrite inject_Z_plus in Hhi.
    apply (Qplus_lt_l _ _ (inject_Z w * inject_Z l)).
    ring_simplify. ring_simplify in Hhi. by rewrite (Qmult_comm (inject_Z w)).
Qed.

Lemma calculate_room_positive (room : Room.t) :
  0 < Room.sqft room →
  ∃ w l, calculate_room room = Ok (Room.set_dimensions w l room).
Proof.
  intros Hs.
  destruct (room_width_spec room Hs) as (w & Ew & Hw & _).
  destruct (room_length_spec room w) as (l & El & _); [lia|done|].
  exists w, l. unfold calculate_room. rewrite Ew. cbn [mbind result_bind].
  by rewrite El.
Qed.



(** ** Room inventory builder *)

Lemma count_type_app (rt : string) (l1 l2 : list Room.t) :
  count_type rt (l1 ++ l2) = count_type rt l1 + count_type rt l2.
Proof. unfold count_type. rewrite filter_app, length_app. lia. Qed.

Lemma count_type_map {A : Type} (rt : string) (f : A → Room.t) (l : list A) :
  (∀ a, Room.room_type (f a) = rt) →
  count_type rt (map f l) = Z.of_nat (length l).
Proof.
  intros H. unfold count_type. f_equal.
  induction l as [|a l IH]; [done|]. simpl.
  rewrite filter_cons_True by apply H. simpl. by rewrite IH.
Qed.

Lemma count_type_map_other {A : Type} (rt : string) (f : A → Room.t)
    (l : list A) :
  (∀ a, Room.room_type (f a) ≠ rt) → count_type rt (map f l) = 0.
Proof.
  intros H. unfold count_type.
  induction l as [|a l IH]; [done|]. simpl.
  by rewrite filter_cons_False by apply H.
Qed.

Lemma length_seqZ_max (n : Z) : Z.of_nat (length (seqZ 0 n)) = Z.max n 0.
Proof. rewrite length_seqZ. lia. Qed.

Lemma str_in_spec (s : string) (l : list string) : str_in s l = true ↔ s ∈ l.
Proof.
  unfold str_in. rewrite existsb_exists. split.
  - intros (y & Hy & E). apply String.eqb_eq in E. subst y.
    by apply list_elem_of_In.
  - intros H. exists s. split; [by apply list_elem_of_In|apply String.eqb_refl].
Qed.

(** Decides the category tests left by a count over literal rooms. *)
Ltac count_cases :=
  cbn; repeat case_decide; try discriminate; try congruence; try lia.

(** The rooms that [_add_bathrooms] appends, in order. *)
Lemma _add_bathrooms_rooms (self : t) :
  let req := requirements self in
  let full := py_int (HouseRequirements.bathrooms req) - 1 in
  let jnj :=
    str_in "jack_and_jill" (HouseRequirements.bathroom_types req)
    && (0 <? full) in
  let half :=
    Qle_bool (1 # 2) (py_mod1 (HouseRequirements.bathrooms req)) in
  rooms (_add_bathrooms self) =
  rooms self
  ++ [new_room "Master Bathroom" 100 "master_bathroom" 1]
  ++ (if jnj
      then [new_room "Jack and Jill Bathroom" 80 "jack_and_jill_bathroom" 1]
      else [])
  ++ map (λ i, new_room ("Bathroom " +:+ pretty (i + 2)) 40 "bathroom" 1)
         (seqZ 0 (if jnj then full - 1 else full))
  ++ map (λ _, new_room "Powder Room" 25 "half_bathroom" 0)
         (seqZ 0 (if half then 1 else 0)).
Proof.
  intros req full jnj half. unfold _add_bathrooms.
  fold req. fold full. fold jnj. fold half.
  destruct jnj; cbn [rooms extend append set_rooms requirements];
    rewrite <- ?app_assoc; reflexivity.
Qed.

(** C3. For a bathroom count [b >= 0] the builder emits exactly one master
    bathroom (1 window); exactly one jack-and-jill bathroom if and only if
    the tag is requested and [floor b - 1 > 0]; exactly
    [max (floor b - 1 - j, 0)] numbered bathrooms, [j] being 1 when the
    jack-and-jill room was emitted and 0 otherwise; and exactly one powder
    room (half_bathroom, 0 windows) if and only if [b mod 1 >= 0.5]. *)
Theorem C3_bathroom_inventory (self : t) :
  let req := requirements self in
  let b := HouseRequirements.bathrooms req in
  (0 <= b)%Q →
  let full := Qfloor b in
  let jnj := "jack_and_jill" ∈ HouseRequirements.bathroom_types req
             ∧ 0 < full - 1 in
  let j := if decide jnj then 1 else 0 in
  let half := (1 # 2 <= b - inject_Z (Qfloor b))%Q in
  ∃ added,
    rooms (_add_bathrooms self) = rooms self ++ added
    ∧ count_type "master_bathroom" added = 1
    ∧ count_type "jack_and_jill_bathroom" added = j
    ∧ count_type "bathroom" added = Z.max (full - 1 - j) 0
    ∧ (half → count_type "half_bathroom" added = 1)
    ∧ (¬ half → count_type "half_bathroom" added = 0)
    ∧ Z.of_nat (length added)
      = 1 + j + Z.max (full - 1 - j) 0 + count_type "half_bathroom" added
    ∧ (∀ r, r ∈ added → Room.room_type r = "master_bathroom" →
            Room.windows r = 1)
    ∧ (∀ r, r ∈ added → Room.room_type r = "half_bathroom" →
            Room.name r = "Powder Room" ∧ Room.windows r = 0).
Proof.
  intros req b Hb full jnj j half.
  pose proof (_add_bathrooms_rooms self) as E. cbv zeta in E.
  fold req in E. fold b in E. rewrite (py_int_nonneg b Hb) in E. fold full in E.
  set (jb := str_in "jack_and_jill" (HouseRequirements.bathroom_types req)
             && (0 <? full - 1)) in E.
  assert (Hj : jb = bool_decide jnj).
  { subst jb jnj. apply eq_true_iff_eq.
    rewrite andb_true_iff, bool_decide_eq_true, str_in_spec, Z.ltb_lt. done. }
  set (hb := Qle_bool (1 # 2) (py_mod1 b)) in E.
  assert (Hh : hb = true ↔ half).
  { subst hb half. unfold py_mod1. apply Qle_bool_iff. }
  eexists. split; [exact E|].
  rewrite !count_type_app, !length_app, !length_map, !Nat2Z.inj_add.
  rewrite !length_seqZ_max.
  rewrite (count_type_map "bathroom"), length_seqZ_max by done.
  rewrite !(count_type_map_other "master_bathroom") by done.
  rewrite !(count_type_map_other "jack_and_jill_bathroom") by done.
  rewrite (count_type_map_other "bathroom" (λ _, new_room "Powder Room" _ _ _))
    by done.
  rewrite (count_type_map_other "half_bathroom"
             (λ i, new_room ("Bathroom " +:+ _) _ _ _)) by done.
  rewrite (count_type_map "half_bathroom"), length_seqZ_max by done.
  assert (Hcases : (jb = true ∧ j = 1 ∨ jb = false ∧ j = 0)).
  { subst j. rewrite Hj. destruct (decide jnj).
    - left. by rewrite bool_decide_eq_true_2.
    - right. by rewrite bool_decide_eq_false_2. }
  assert (Hfull : jb = true → 0 < full - 1).
  { rewrite Hj, bool_decide_eq_true. by intros [_ ?]. }
  clearbody jb hb j.
  assert (C1 : ∀ rt r, count_type rt [r]
                       = if decide (Room.room_type r = rt) then 1 else 0).
  { intros rt r. unfold count_type. rewrite filter_cons, filter_nil.
    by destruct (decide _). }
  assert (C0 : ∀ rt, count_type rt [] = 0) by done.
  split_and!.
  - destruct jb; rewrite ?C1, ?C0; count_cases.
  - destruct Hcases as [[-> ->]|[-> ->]]; rewrite ?C1, ?C0; count_cases.
  - destruct Hcases as [[-> ->]|[-> ->]]; rewrite ?C1, ?C0; count_cases.
  - intros H. apply Hh in H. rewrite H. destruct jb; rewrite ?C1, ?C0;
      count_cases.
  - intros H. destruct hb; [by destruct H; apply Hh|].
    destruct jb; rewrite ?C1, ?C0; count_cases.
  - destruct Hcases as [[-> ->]|[-> ->]]; destruct hb;
      rewrite ?C1, ?C0; count_cases.
  - intros r Hr Ht. rewrite !elem_of_app, !list_elem_of_fmap in Hr.
    destruct Hr as [Hr|[Hr|[(i & -> & _)|(i & -> & _)]]]; try done.
    + apply list_elem_of_singleton in Hr. by subst r.
    + destruct jb; [|by apply elem_of_nil in Hr].
      apply list_elem_of_singleton in Hr. by subst r.
  - intros r Hr Ht. rewrite !elem_of_app, !list_elem_of_fmap in Hr.
    destruct Hr as [Hr|[Hr|[(i & -> & _)|(i & -> & _)]]]; try done.
    + apply list_elem_of_singleton in Hr. by subst r.
    + destruct jb; [|by apply elem_of_nil in Hr].
      apply list_elem_of_singleton in Hr. by subst r.
Qed.

(** C3 at 2.5 bathrooms: one master bathroom, one numbered bathroom and one
    powder room. *)
Lemma C3_bathroom_inventory_witness :
  let self := init (req_bathrooms (5 # 2) []) in
  (0 <= 5 # 2)%Q
  ∧ ∃ added,
      rooms (_add_bathrooms self) = rooms self ++ added
      ∧ count_type "master_bathroom" added = 1
      ∧ count_type "jack_and_jill_bathroom" added = 0
      ∧ count_type "bathroom" added = 1
      ∧ count_type "half_bathroom" added = 1.
Proof.
  intros self. split; [by intros ?|].
  destruct (C3_bathroom_inventory self)
    as (added & E & Hm & Hj & Hb & Hh & _); [by intros ?|].
  exists added. split; [exact E|]. split; [exact Hm|]. split; [exact Hj|].
  split; [exact Hb|]. apply Hh. by intros ?.
Defined.

Example bathrooms_2_5 :
  summary (rooms (_add_bathrooms (init (req_bathrooms (5 # 2) [])))) =
  [ ("Master Bathroom", "master_bathroom", 1); ("Bathroom 2", "bathroom", 1);
    ("Powder Room", "half_bathroom", 0) ].
Proof. reflexivity. Qed.

Example bathrooms_4_jack_and_jill :
  summary
    (rooms (_add_bathrooms (init (req_bathrooms 4 ["jack_and_jill"])))) =
  [ ("Master Bathroom", "master_bathroom", 1);
    ("Jack and Jill Bathroom", "jack_and_jill_bathroom", 1);
    ("Bathroom 2", "bathroom", 1); ("Bathroom 3", "bathroom", 1) ].
Proof. reflexivity. Qed.

(** The inventory of the example of the source, in emission order. *)
Example inventory_example :
  summary (rooms (build_inventory (init req_example))) =
  [ ("Master Bedroom", "master_bedroom", 2); ("Bedroom 2", "bedroom", 1);
    ("Bedroom 3", "bedroom", 1); ("Bedroom 4", "bedroom", 1);
    ("Master Bathroom", "master_bathroom", 1);
    ("Jack and Jill Bathroom", "jack_and_jill_bathroom", 1);
    ("Bathroom 2", "bathroom", 1); ("Bathroom 3", "bathroom", 1);
    ("Kitchen", "kitchen", 2); ("Dining Room", "dining_room", 1);
    ("Living Room", "living_room", 3); ("3 Car Garage", "garage", 0);
    ("Gameroom", "gameroom", 1); ("Den", "den", 1); ("Foyer", "foyer", 0);
    ("Hallway", "hallway", 0) ].
Proof. reflexivity. Qed.

Example title_example :
  title (replace "_" " " "home_theater") = "Home Theater".
Proof. reflexivity. Qed.

(** ** Footprint query *)

Lemma py_max_spec (a : Z) (l : list Z) : is_max (py_max a l) (a :: l).
Proof.
  unfold py_max, is_max. revert a.
  induction l as [|b l IH]; intros a; simpl.
  - split; [by left|]. intros v Hv. apply list_elem_of_singleton in Hv. lia.
  - pose proof (IH (Z.max a b)) as [Hin Hle]. split.
    + apply elem_of_cons in Hin as [E|Hin]; [|by right; right].
      rewrite E. destruct (Z.max_spec a b) as [[_ ->]|[_ ->]];
        [right; left|left].
    + assert (Hm : Z.max a b ≤ foldl Z.max (Z.max a b) l)
        by (apply Hle; left).
      intros v Hv. rewrite !elem_of_cons in Hv.
      destruct Hv as [->|[->|Hv]]; [lia|lia|].
      apply Hle. by right.
Qed.

(** C7. The footprint query returns (10000, 8000) on an empty room list;
    on a non-empty one it returns the maximum of [x + length] plus 1000 and
    the maximum of [y + width] plus 1000. *)
Theorem C7_house_dimensions (req : HouseRequirements.t) (r : Room.t)
    (l : list Room.t) :
  get_house_dimensions (Build req []) = (10000, 8000)
  ∧ ∃ max_x max_y,
      get_house_dimensions (Build req (r :: l)) = (max_x + 1000, max_y + 1000)
      ∧ is_max max_x (map (λ r, Room.x r + Room.length r) (r :: l))
      ∧ is_max max_y (map (λ r, Room.y r + Room.width r) (r :: l)).
Proof.
  split; [reflexivity|]. eexists _, _. split; [reflexivity|].
  split; apply py_max_spec.
Qed.

(** ** The inventory as a whole *)

Lemma appends_trans (s1 s2 s3 : t) (a b : list Room.t) :
  appends s1 s2 a → appends s2 s3 b → appends s1 s3 (a ++ b).
Proof.
  intros [R1 E1] [R2 E2]. split; [congruence|].
  by rewrite E2, E1, <- app_assoc.
Qed.

Lemma room_sizes_positive (k : string) (v : Z) :
  room_sizes !! k = Some v → 0 < v.
Proof.
  intros H. apply elem_of_list_to_map_2 in H.
  repeat (apply elem_of_cons in H as [[= -> ->]|H]; [done|]).
  by apply elem_of_nil in H.
Qed.

Lemma _add_bedrooms_appends (self : t) :
  ∃ added, appends self (_add_bedrooms self) added
    ∧ Forall positive_area added ∧ master_bedroom ∈ added.
Proof.
  eexists. split; [split; [done|]|].
  - unfold _add_bedrooms. cbn [rooms extend append set_rooms requirements].
    rewrite <- app_assoc. reflexivity.
  - split; [|by left]. apply Forall_app. split; [by repeat constructor|].
    apply Forall_fmap, Forall_forall. by intros.
Qed.

Lemma _add_bathrooms_appends (self : t) :
  ∃ added, appends self (_add_bathrooms self) added
    ∧ Forall positive_area added ∧ master_bathroom ∈ added.
Proof.
  eexists. split; [split; [|apply _add_bathrooms_rooms]|].
  - unfold _add_bathrooms.
    by destruct (str_in _ _ && _);
      cbn [rooms extend append set_rooms requirements].
  - split; [|by left]. cbv zeta. repeat (apply Forall_app; split).
    + by repeat constructor.
    + destruct (str_in _ _ && _); by repeat constructor.
    + apply Forall_fmap, Forall_forall. by intros.
    + apply Forall_fmap, Forall_forall. by intros.
Qed.

Lemma _add_kitchen_appends (self : t) :
  appends self (_add_kitchen self) [kitchen; dining_room].
Proof.
  split; [done|]. unfold _add_kitchen.
  cbn [rooms extend append set_rooms requirements].
  by rewrite <- app_assoc.
Qed.

Lemma _add_living_areas_appends (self : t) :
  appends self (_add_living_areas self) [living_room].
Proof. by split. Qed.

Lemma _add_garage_appends (self : t) :
  ∃ added, appends self (_add_garage self) added ∧ Forall positive_area added.
Proof.
  unfold _add_garage.
  destruct (0 <? HouseRequirements.garage_cars (requirements self)) eqn:E.
  - eexists. split; [by split|]. repeat constructor.
    apply Z.ltb_lt in E. unfold positive_area. cbn. change (size_of "garage") with 250. lia.
  - exists []. split; [|done]. split; [done|]. by rewrite app_nil_r.
Qed.

Lemma _add_special_rooms_appends (self : t) :
  ∃ added, appends self (_add_special_rooms self) added
    ∧ Forall positive_area added.
Proof.
  unfold _add_special_rooms.
  generalize (HouseRequirements.special_rooms (requirements self)).
  intros l. revert self. induction l as [|room_type l IH]; intros self.
  - exists []. split; [|done]. split; [done|]. by rewrite app_nil_r.
  - cbn [foldl]. destruct (room_sizes !! room_type) as [size|] eqn:E.
    + destruct (IH (append (new_room (title (replace "_" " " room_type))
                                     size room_type 1) self))
        as (added & Ha & Hp).
      eexists. split.
      * eapply appends_trans; [|exact Ha]. by split.
      * constructor; [|done]. by apply room_sizes_positive in E.
    + apply IH.
Qed.

Lemma _add_circulation_spaces_appends (self : t) :
  ∃ added, appends self (_add_circulation_spaces self) added
    ∧ Forall positive_area added ∧ foyer ∈ added.
Proof.
  unfold _add_circulation_spaces.
  cbn [rooms extend append set_rooms requirements].
  destruct (3 <=? _).
  - eexists. split; [split; [done|]|].
    + cbn [rooms extend append set_rooms requirements].
      rewrite <- app_assoc. reflexivity.
    + split; [by repeat constructor|by left].
  - eexists. split; [by split|]. split; [by repeat constructor|by left].
Qed.

(** The inventory, part by part, in emission order. *)
Lemma build_inventory_parts (self : t) :
  requirements (build_inventory self) = requirements self
  ∧ ∃ beds baths garage special circulation,
      rooms (build_inventory self) =
      beds ++ baths ++ [kitchen; dining_room] ++ [living_room]
      ++ garage ++ special ++ circulation
      ∧ master_bedroom ∈ beds ∧ master_bathroom ∈ baths
      ∧ foyer ∈ circulation
      ∧ Forall positive_area (rooms (build_inventory self)).
Proof.
  unfold build_inventory. set (s0 := set_rooms [] self).
  destruct (_add_bedrooms_appends s0) as (beds & H1 & P1 & M1).
  set (s1 := _add_bedrooms s0) in *.
  destruct (_add_bathrooms_appends s1) as (baths & H2 & P2 & M2).
  set (s2 := _add_bathrooms s1) in *.
  pose proof (_add_kitchen_appends s2) as H3. set (s3 := _add_kitchen s2) in *.
  pose proof (_add_living_areas_appends s3) as H4.
  set (s4 := _add_living_areas s3) in *.
  destruct (_add_garage_appends s4) as (garage & H5 & P5).
  set (s5 := _add_garage s4) in *.
  destruct (_add_special_rooms_appends s5) as (special & H6 & P6).
  set (s6 := _add_special_rooms s5) in *.
  destruct (_add_circulation_spaces_appends s6) as (circ & H7 & P7 & M7).
  set (s7 := _add_circulation_spaces s6) in *.
  pose proof (appends_trans _ _ _ _ _ H1
    (appends_trans _ _ _ _ _ H2
      (appends_trans _ _ _ _ _ H3
        (appends_trans _ _ _ _ _ H4
          (appends_trans _ _ _ _ _ H5
            (appends_trans _ _ _ _ _ H6 H7)))))) as [R E].
  split; [exact R|]. exists beds, baths, garage, special, circ.
  assert (E' : rooms s7 = beds ++ baths ++ [kitchen; dining_room]
                         ++ [living_room] ++ garage ++ special ++ circ)
    by exact E.
  split; [exact E'|]. split; [done|]. split; [done|]. split; [done|].
  rewrite E'. repeat (apply Forall_app; split); try done;
    by repeat constructor.
Qed.

(** ** The stable sort *)

Section sorting.
Context {A : Type} (key : A → Z).

Lemma insert_desc_perm (a : A) (l : list A) : insert_desc key a l ≡ₚ a :: l.
Proof.
  induction l as [|b l IH]; [done|]. simpl.
  destruct (key b <=? key a); [done|].
  rewrite IH. apply Permutation_swap.
Qed.

Lemma sorted_desc_perm (l : list A) : sorted_desc key l ≡ₚ l.
Proof.
  induction l as [|a l IH]; [done|]. simpl.
  by rewrite insert_desc_perm, IH.
Qed.

Lemma insert_desc_sorted (a : A) (l : list A) :
  StronglySorted (desc key) l → StronglySorted (desc key) (insert_desc key a l).
Proof.
  induction 1 as [|b l Hl IH Hb]; simpl; [by repeat constructor|].
  destruct (key b <=? key a) eqn:E.
  - apply Z.leb_le in E. constructor; [by constructor|].
    constructor; [done|]. eapply Forall_impl; [exact Hb|].
    unfold desc. intros c ?. lia.
  - apply Z.leb_gt in E. constructor; [done|].
    rewrite insert_desc_perm. constructor; [|done]. unfold desc. lia.
Qed.

Lemma sorted_desc_sorted (l : list A) :
  StronglySorted (desc key) (sorted_desc key l).
Proof.
  induction l as [|a l IH]; simpl; [constructor|by apply insert_desc_sorted].
Qed.


#[local] Instance strict_desc_antisymm : AntiSymm (=) (strict_desc key).
Proof. unfold strict_desc. intros a b ??. lia. Qed.

End sorting.

Lemma sorted_desc_map {A B : Type} (key : B → Z) (g : A → B) (l : list A) :
  map g (sorted_desc (key ∘ g) l) = sorted_desc key (map g l).
Proof.
  induction l as [|a l IH]; [done|]. simpl. rewrite <- IH.
  generalize (sorted_desc (key ∘ g) l). clear IH. intros s.
  induction s as [|b s IH]; [done|]. simpl.
  destruct (key (g b) <=? key (g a)); [done|]. simpl. by rewrite IH.
Qed.

Lemma sorted_desc_ext {A : Type} (key1 key2 : A → Z) (l : list A) :
  (∀ a, key1 a = key2 a) → sorted_desc key1 l = sorted_desc key2 l.
Proof.
  intros H. induction l as [|a l IH]; [done|]. simpl. rewrite IH.
  generalize (sorted_desc key2 l). intros s.
  induction s as [|b s IHs]; [done|]. simpl. by rewrite !H, IHs.
Qed.

(** ** The layout loop *)

Lemma place_unplaced (mw : Z) (c : cursor) (room : Room.t) :
  unplaced (place mw c room).2 = unplaced room.
Proof. done. Qed.

Lemma layout_length (mw : Z) (order : list nat) (c : cursor)
    (rooms : list Room.t) :
  length (layout mw order c rooms) = length rooms.
Proof.
  revert c rooms. induction order as [|i order IH]; intros c rooms; [done|].
  cbn [layout]. destruct (rooms !! i) as [room|]; [|apply IH].
  destruct (place mw c room) as [c' room']. by rewrite IH, length_insert.
Qed.

(** The loop assigns positions and nothing else. *)
Lemma layout_unplaced (mw : Z) (order : list nat) (c : cursor)
    (rooms : list Room.t) :
  map unplaced (layout mw order c rooms) = map unplaced rooms.
Proof.
  revert c rooms. induction order as [|i order IH]; intros c rooms; [done|].
  cbn [layout]. destruct (rooms !! i) as [room|] eqn:E; [|apply IH].
  pose proof (place_unplaced mw c room) as Hp.
  destruct (place mw c room) as [c' room']. cbn [snd] in Hp.
  rewrite IH. change map with (@fmap list _) in *.
  rewrite list_fmap_insert, Hp. apply list_insert_id.
  by rewrite list_lookup_fmap, E.
Qed.

Lemma layout_lookup_notin (mw : Z) (order : list nat) (c : cursor)
    (rooms : list Room.t) (i : nat) :
  i ∉ order → layout mw order c rooms !! i = rooms !! i.
Proof.
  revert c rooms. induction order as [|k order IH]; intros c rooms Hi; [done|].
  apply not_elem_of_cons in Hi as [Hik Hi]. cbn [layout].
  destruct (rooms !! k) as [room|]; [|by apply IH].
  destruct (place mw c room) as [c' room'].
  rewrite IH by done. by apply list_lookup_insert_ne.
Qed.

(** Read along the placement order, the store after the loop is the
    sequential layout of the rooms read along that order before the loop. *)
Lemma layout_select (mw : Z) (order : list nat) (c : cursor)
    (rooms : list Room.t) :
  NoDup order → (∀ i, i ∈ order → (i < length rooms)%nat) →
  map (λ i, layout mw order c rooms !!! i) order
  = layout_seq mw c (map (λ i, rooms !!! i) order).
Proof.
  revert c rooms. induction order as [|k order IH]; intros c rooms Hn Hlt;
    [done|].
  apply NoDup_cons in Hn as [Hk Hn].
  assert (Hkl : (k < length rooms)%nat) by (apply Hlt; left).
  destruct (lookup_lt_is_Some_2 rooms k Hkl) as [room E].
  cbn [layout map layout_seq]. rewrite E.
  rewrite (list_lookup_total_correct _ _ _ E).
  destruct (place mw c room) as [c' room']. f_equal.
  - apply list_lookup_total_correct.
    rewrite layout_lookup_notin by done. by apply list_lookup_insert_eq.
  - rewrite IH; [|done|].
    + f_equal. apply map_ext_in. intros i Hi%list_elem_of_In.
      apply list_lookup_total_insert_ne. by intros ->.
    + intros i Hi. rewrite length_insert. apply Hlt. by right.
Qed.

Lemma list_select_all {A : Type} `{!Inhabited A} (l : list A) :
  map (λ i, l !!! i) (seq 0 (length l)) = l.
Proof.
  apply list_eq. intros i. change map with (@fmap list _).
  rewrite list_lookup_fmap.
  destruct (decide (i < length l)%nat) as [Hi|Hi].
  - rewrite lookup_seq_lt by done. simpl.
    symmetry. by apply list_lookup_lookup_total_lt.
  - rewrite (lookup_ge_None_2 l) by lia.
    rewrite (lookup_ge_None_2 (seq _ _)); [done|]. rewrite length_seq. lia.
Qed.

(** With a placement order that visits every room once, the store after the
    loop holds the sequential layout, up to the order of the list. *)
Lemma layout_perm (mw : Z) (order : list nat) (c : cursor)
    (rooms : list Room.t) :
  order ≡ₚ seq 0 (length rooms) →
  layout mw order c rooms ≡ₚ layout_seq mw c (map (λ i, rooms !!! i) order).
Proof.
  intros Hp.
  rewrite <- layout_select.
  - rewrite <- (list_select_all (layout mw order c rooms)) at 1.
    rewrite layout_length. change map with (@fmap list _). by rewrite Hp.
  - rewrite Hp. apply NoDup_seq.
  - intros i Hi. rewrite Hp in Hi. apply elem_of_seq in Hi. lia.
Qed.

Lemma place_spec (mw : Z) (c : cursor) (room : Room.t) :
  cursor_ok c → 0 ≤ Room.length room →
  let c' := (place mw c room).1 in
  let room' := (place mw c room).2 in
  cursor_ok c' ∧ placed_after c room'
  ∧ Room.length room' = Room.length room
  ∧ current_y c' = Room.y room'
  ∧ current_x c' = Room.x room' + Room.length room' + 200
  ∧ current_y c ≤ current_y c'
  ∧ (current_y c' = current_y c → current_x c ≤ current_x c').
Proof.
  intros (Hx & Hy & Hh) Hl. unfold place, cursor_ok, placed_after.
  destruct (_ && _); cbn; lia.
Qed.

(** The sequential layout: every room lies at or after the cursor it was
    placed from, and the rooms of one row are disjoint. *)
Lemma layout_seq_spec (mw : Z) (l : list Room.t) (c : cursor) :
  cursor_ok c → Forall (λ r, 0 ≤ Room.length r) l →
  Forall (placed_after c) (layout_seq mw c l)
  ∧ ForallOrdPairs no_overlap (layout_seq mw c l).
Proof.
  revert c. induction l as [|room l IH]; intros c Hc Hl.
  { split; constructor. }
  apply Forall_cons in Hl as [Hr Hl].
  pose proof (place_spec mw c room Hc Hr) as Hp. cbv zeta in Hp.
  cbn [layout_seq]. destruct (place mw c room) as [c' room'].
  cbn [fst snd] in Hp. destruct Hp as (Hc' & Ha & El & Ey & Ex & Hy & Hx).
  destruct (IH c' Hc' Hl) as [IHa IHp].
  split.
  - constructor; [done|]. eapply Forall_impl; [exact IHa|].
    unfold placed_after. intros r (? & ? & ?). lia.
  - constructor; [|done]. eapply Forall_impl; [exact IHa|].
    unfold placed_after, no_overlap. intros r (? & ? & ?) E. left. lia.
Qed.

Lemma ForallOrdPairs_lookup {A : Type} (R : relation A) (l : list A) :
  ForallOrdPairs R l →
  ∀ i j a b, (i < j)%nat → l !! i = Some a → l !! j = Some b → R a b.
Proof.
  induction 1 as [|x l Hx Hl IH]; intros i j a b Hij Ha Hb; [done|].
  destruct j as [|j]; [lia|]. destruct i as [|i]; simpl in *.
  - injection Ha as ->. rewrite Forall_forall in Hx. apply Hx.
    by eapply list_elem_of_lookup_2.
  - apply (IH i j); [lia|done|done].
Qed.

Lemma no_overlap_sym (a b : Room.t) : no_overlap a b → no_overlap b a.
Proof. unfold no_overlap. intros H E. destruct H as [?|?]; [done|by right|by left]. Qed.

(** ** The packer *)

Lemma sqft_at_lookup (rooms : list Room.t) (i : nat) :
  sqft_at rooms i = Room.sqft (rooms !!! i).
Proof.
  unfold sqft_at. rewrite list_lookup_total_alt. by destruct (rooms !! i).
Qed.

(** The placement order is the stable sort of the rooms, read as indices. *)
Lemma sorted_rooms_select (rooms : list Room.t) :
  map (λ i, rooms !!! i)
      (sorted_desc (sqft_at rooms) (seq 0 (length rooms)))
  = sorted_desc Room.sqft rooms.
Proof.
  rewrite (sorted_desc_ext _ (Room.sqft ∘ (λ i, rooms !!! i)))
    by apply sqft_at_lookup.
  by rewrite sorted_desc_map, list_select_all.
Qed.

Lemma _arrange_rooms_nonempty (self : t) :
  rooms self ≠ [] →
  _arrange_rooms self =
  let total_sqft := HouseRequirements.total_sqft (requirements self) in
  let total_area := sum_sqft (rooms self) in
  self0 ← (if total_area <? total_sqft then
             q ← py_div (inject_Z total_sqft) (inject_Z total_area);
             scale_factor ← math_sqrt q;
             Ok (set_rooms (map (scale_room scale_factor) (rooms self)) self)
           else Ok self);
  s ← math_sqrt (inject_Z total_sqft * sqft_to_mm2)%Q;
  Ok (set_rooms
        (layout (int_surd (surd_mul (13 # 10) s))
                (sorted_desc (sqft_at (rooms self))
                             (seq 0 (length (rooms self))))
                (Cursor 0 0 0) (rooms self0))
        self0).
Proof.
  intros Hne. unfold _arrange_rooms.
  destruct (rooms self) as [|r0 l0] eqn:Er; [done|]. by rewrite <- Er.
Qed.

(** A successful run of [_arrange_rooms] on a non-empty store: what was
    checked on the way and what the store holds afterwards. *)
Lemma _arrange_rooms_inv (self self' : t) :
  rooms self ≠ [] → _arrange_rooms self = Ok self' →
  let total_sqft := total_sqft_of self in
  let total_area := sum_sqft (rooms self) in
  requirements self' = requirements self
  ∧ 0 ≤ total_sqft
  ∧ (total_area < total_sqft →
     total_area ≠ 0 ∧ (0 <= inject_Z total_sqft / inject_Z total_area)%Q)
  ∧ rooms self' =
    layout (max_row_width total_sqft)
           (sorted_desc (sqft_at (rooms self)) (seq 0 (length (rooms self))))
           (Cursor 0 0 0)
           (map (scaling total_sqft total_area) (rooms self)).
Proof.
  intros Hne H. rewrite _arrange_rooms_nonempty in H by done.
  cbv zeta in *. unfold total_sqft_of, scaling in *.
  remember (HouseRequirements.total_sqft (requirements self)) as total_sqft.
  remember (sum_sqft (rooms self)) as total_area.
  revert H. destruct (total_area <? total_sqft) eqn:Et; intros H.
  - apply Z.ltb_lt in Et. unfold py_div in H.
    destruct (Qeq_bool (inject_Z total_area) 0) eqn:E0;
      cbn [mbind result_bind] in H; [done|].
    cbn [mbind result_bind] in H. unfold math_sqrt in H.
    destruct (Qlt_bool (inject_Z total_sqft / inject_Z total_area) 0) eqn:E1;
      cbn [mbind result_bind] in H; [done|].
    cbn [mbind result_bind rooms set_rooms requirements] in H.
    destruct (Qlt_bool (inject_Z total_sqft * sqft_to_mm2) 0) eqn:E2;
      cbn [mbind result_bind] in H; [done|].
    cbn [mbind result_bind rooms set_rooms requirements] in H.
    injection H as <-. cbn [rooms requirements].
    apply Qlt_bool_false in E1, E2.
    split; [done|]. split.
    { unfold sqft_to_mm2, Qle in E2. simpl in E2. lia. }
    split; [|done]. intros _. split; [|done]. intros ->. done.
  - apply Z.ltb_ge in Et.
    cbn [mbind result_bind] in H. unfold math_sqrt in H.
    destruct (Qlt_bool (inject_Z total_sqft * sqft_to_mm2) 0) eqn:E2;
      cbn [mbind result_bind] in H; [done|].
    cbn [mbind result_bind rooms set_rooms requirements] in H.
    injection H as <-. cbn [rooms requirements].
    apply Qlt_bool_false in E2.
    split; [done|]. split.
    { unfold sqft_to_mm2, Qle in E2. simpl in E2. lia. }
    split; [lia|]. by rewrite map_id.
Qed.

(** [_arrange_rooms] returns normally as soon as the requested area is not
    negative and, where scaling applies, the summed area is positive. *)
Lemma _arrange_rooms_ok (self : t) :
  0 ≤ total_sqft_of self →
  (sum_sqft (rooms self) < total_sqft_of self → 0 < sum_sqft (rooms self)) →
  ∃ self', _arrange_rooms self = Ok self'.
Proof.
  intros Ht Hs.
  destruct (decide (rooms self = [])) as [Er|Er].
  { unfold _arrange_rooms. rewrite Er. by eexists. }
  rewrite _arrange_rooms_nonempty by done.
  cbv zeta. unfold total_sqft_of in *.
  remember (HouseRequirements.total_sqft (requirements self)) as total_sqft.
  remember (sum_sqft (rooms self)) as total_area.
  assert (E2 : Qlt_bool (inject_Z total_sqft * sqft_to_mm2) 0 = false).
  { apply Qlt_bool_false. unfold sqft_to_mm2, Qle. simpl. lia. }
  destruct (total_area <? total_sqft) eqn:Et.
  - apply Z.ltb_lt in Et. specialize (Hs Et). unfold py_div.
    destruct (Qeq_bool (inject_Z total_area) 0) eqn:E0.
    { apply Qeq_bool_iff in E0. unfold Qeq in E0. simpl in E0. lia. }
    cbn [mbind result_bind]. unfold math_sqrt.
    assert (E1 : Qlt_bool (inject_Z total_sqft / inject_Z total_area) 0
                 = false).
    { apply Qlt_bool_false. apply Qle_shift_div_l.
      - unfold Qlt. simpl. lia.
      - unfold Qle. simpl. lia. }
    rewrite E1. cbn [mbind result_bind rooms set_rooms requirements].
    rewrite E2. cbn [mbind result_bind]. by eexists.
  - cbn [mbind result_bind]. unfold math_sqrt. rewrite E2.
    cbn [mbind result_bind]. by eexists.
Qed.

(** The store after [_arrange_rooms] is, up to the order of the list, the
    sequential layout of the rooms sorted by descending area. *)
Lemma _arrange_rooms_sorted (self self' : t) :
  rooms self ≠ [] → _arrange_rooms self = Ok self' →
  rooms self' ≡ₚ
  layout_seq (max_row_width (total_sqft_of self)) (Cursor 0 0 0)
    (map (scaling (total_sqft_of self) (sum_sqft (rooms self)))
         (sorted_desc Room.sqft (rooms self))).
Proof.
  intros Hne H.
  destruct (_arrange_rooms_inv self self' Hne H) as (_ & _ & _ & E).
  rewrite E.
  rewrite layout_perm by (rewrite length_map; apply sorted_desc_perm).
  rewrite <- sorted_rooms_select.
  change map with (@fmap list _). rewrite <- list_fmap_compose.
  erewrite list_fmap_ext; [reflexivity|].
  intros k i Hi. simpl.
  assert (Hlt : (i < length (rooms self))%nat).
  { apply list_elem_of_lookup_2 in Hi.
    rewrite sorted_desc_perm in Hi. apply elem_of_seq in Hi. lia. }
  by apply list_lookup_total_fmap.
Qed.

Example garage10_dimensions :
  calculate_room (new_room "10 Car Garage" 2500 "garage" 0) = Ok garage10.
Proof. reflexivity. Qed.

Lemma int_surd_nonneg (s : surd) : (0 <= coef s)%Q → 0 ≤ int_surd s.
Proof.
  intros H. unfold int_surd. apply Qlt_bool_false in H. rewrite H.
  apply Z.sqrt_nonneg.
Qed.

Lemma scaling_length_nonneg (t s : Z) (r : Room.t) :
  0 ≤ Room.length r → 0 ≤ Room.length (scaling t s r).
Proof.
  intros H. unfold scaling. destruct (s <? t); [|done].
  cbn. apply int_surd_nonneg. cbn. unfold Qle. simpl. lia.
Qed.

Lemma ForallOrdPairs_perm {A : Type} (R : relation A) (l l' : list A) :
  (∀ a b, R a b → R b a) → l ≡ₚ l' →
  ForallOrdPairs R l → ForallOrdPairs R l'.
Proof.
  intros Hsym Hp. induction Hp as [|x l l' Hp IH|x y l|l1 l2 l3 _ IH1 _ IH2];
    intros H.
  - done.
  - inversion H as [|? ? Hx Hl]; subst.
    constructor; [by rewrite <- Hp|by apply IH].
  - inversion H as [|? ? Hy Hl]; subst.
    inversion Hl as [|? ? Hx Hl']; subst.
    apply Forall_cons in Hy as [Hyx Hy].
    constructor; [constructor; [by apply Hsym|done]|by constructor].
  - by apply IH2, IH1.
Qed.

(** C4. When every room has a positive width and a positive length, every
    room has [x >= 0] and [y >= 0] after packing, and two distinct rooms with
    the same [y] have disjoint extents [x, x + length). *)
Theorem C4_rows_do_not_overlap (self self' : t) :
  Forall (λ r, 0 < Room.width r ∧ 0 < Room.length r) (rooms self) →
  _arrange_rooms self = Ok self' →
  Forall (λ r, 0 ≤ Room.x r ∧ 0 ≤ Room.y r) (rooms self')
  ∧ ∀ i j ri rj,
      i ≠ j → rooms self' !! i = Some ri → rooms self' !! j = Some rj →
      Room.y ri = Room.y rj →
      Room.x ri + Room.length ri ≤ Room.x rj
      ∨ Room.x rj + Room.length rj ≤ Room.x ri.
Proof.
  intros Hpos H.
  destruct (decide (rooms self = [])) as [Er|Er].
  { unfold _arrange_rooms in H. rewrite Er in H. injection H as <-.
    rewrite Er. split; [constructor|]. by intros i j ri rj _ ?. }
  pose proof (_arrange_rooms_sorted self self' Er H) as Hp.
  set (L := layout_seq _ _ _) in Hp.
  destruct (layout_seq_spec (max_row_width (total_sqft_of self))
              (map (scaling (total_sqft_of self) (sum_sqft (rooms self)))
                   (sorted_desc Room.sqft (rooms self)))
              (Cursor 0 0 0)) as [Ha Ho].
  { by unfold cursor_ok. }
  { apply Forall_fmap, Forall_forall. intros r Hr. simpl.
    apply scaling_length_nonneg. rewrite sorted_desc_perm in Hr.
    rewrite Forall_forall in Hpos. destruct (Hpos r Hr). lia. }
  fold L in Ha, Ho. split.
  - rewrite Hp. eapply Forall_impl; [exact Ha|].
    unfold placed_after. simpl. intros r (? & ? & _). lia.
  - apply (ForallOrdPairs_perm no_overlap L (rooms self')) in Ho;
      [|apply no_overlap_sym|done].
    intros i j ri rj Hij Hi Hj.
    destruct (decide (i < j)%nat).
    + by apply (ForallOrdPairs_lookup _ _ Ho i j).
    + apply no_overlap_sym. apply (ForallOrdPairs_lookup _ _ Ho j i); [lia|done..].
Qed.

Example den_dimensions :
  calculate_room (new_room "Den" 150 "den" 1) = Ok den
  ∧ calculate_room (new_room "Library" 150 "library" 1) = Ok library.
Proof. split; reflexivity. Qed.

(** C4 on a store of three rooms. *)
Lemma C4_rows_do_not_overlap_witness :
  let self := Build req3000 [den; garage10; library] in
  Forall (λ r, 0 < Room.width r ∧ 0 < Room.length r) (rooms self)
  ∧ ∃ self',
      _arrange_rooms self = Ok self'
      ∧ Forall (λ r, 0 ≤ Room.x r ∧ 0 ≤ Room.y r) (rooms self')
      ∧ ∀ i j ri rj,
          i ≠ j → rooms self' !! i = Some ri → rooms self' !! j = Some rj →
          Room.y ri = Room.y rj →
          Room.x ri + Room.length ri ≤ Room.x rj
          ∨ Room.x rj + Room.length rj ≤ Room.x ri.
Proof.
  intros self.
  assert (Hpos : Forall (λ r, 0 < Room.width r ∧ 0 < Room.length r)
                        (rooms self)) by (repeat constructor).
  split; [exact Hpos|]. eexists. split; [vm_compute; reflexivity|].
  apply (C4_rows_do_not_overlap self); [exact Hpos|vm_compute; reflexivity].
Defined.

Lemma scaling_floor_scaled (t s w : Z) :
  0 < s → 0 ≤ t → 0 ≤ w →
  floor_scaled t s w
    (int_surd (surd_mul (inject_Z w) (Surd 1 (inject_Z t / inject_Z s)))).
Proof.
  intros Hs Ht Hw. unfold surd_mul. cbn [coef rad].
  destruct (int_surd_spec (inject_Z w * 1) (inject_Z t / inject_Z s))
    as (H0 & Hlo & Hhi).
  { unfold Qle. simpl. lia. }
  { apply Qle_shift_div_l; unfold Qlt, Qle; simpl; lia. }
  set (m := int_surd _) in *. clearbody m.
  unfold floor_scaled. split; [done|].
  destruct s as [|p|p]; [lia| |lia].
  unfold Qle, Qlt in *. cbn in Hlo, Hhi. lia.
Qed.


Example garage10_arranged :
  _arrange_rooms (Build req3000 [garage10])
  = Ok (Build req3000 [garage10_packed]).
Proof. reflexivity. Qed.








(** ** The pipeline *)

Lemma for_each_ok {A : Type} (f : A → result A) (l : list A) :
  Forall (λ a, ∃ a', f a = Ok a') l → ∃ l', for_each f l = Ok l'.
Proof.
  induction 1 as [|a l [a' Ea] _ [l' El]]; [by eexists|].
  exists (a' :: l'). cbn [for_each]. rewrite Ea. cbn [mbind result_bind].
  by rewrite El.
Qed.

Lemma for_each_inv {A : Type} (f : A → result A) (l l' : list A) :
  for_each f l = Ok l' → Forall2 (λ a a', f a = Ok a') l l'.
Proof.
  revert l'. induction l as [|a l IH]; intros l' H.
  - injection H as <-. constructor.
  - cbn [for_each] in H. destruct (f a) as [a'|e] eqn:Ea; [|done].
    cbn [mbind result_bind] in H.
    destruct (for_each f l) as [l1|e]; [|done].
    cbn [mbind result_bind] in H. injection H as <-.
    constructor; [done|by apply IH].
Qed.

Lemma for_each_raise {A : Type} (f : A → result A) (l1 l2 : list A) (a : A)
    (e : exn) :
  Forall (λ a, ∃ a', f a = Ok a') l1 → f a = Raise e →
  for_each f (l1 ++ a :: l2) = Raise e.
Proof.
  intros H Ha. induction H as [|b l1 [b' Eb] _ IH]; cbn [for_each app].
  - by rewrite Ha.
  - rewrite Eb. cbn [mbind result_bind]. by rewrite IH.
Qed.

Lemma calculate_room_inv (room room' : Room.t) :
  calculate_room room = Ok room' →
  room' = Room.set_dimensions (Room.width room') (Room.length room') room.
Proof.
  unfold calculate_room. intros H.
  destruct (room_width room) as [w|]; [|done]. cbn [mbind result_bind] in H.
  destruct (room_length room w) as [len|]; [|done].
  cbn [mbind result_bind] in H. by injection H as <-.
Qed.

Lemma calculate_room_ok (room : Room.t) :
  positive_area room → ∃ room', calculate_room room = Ok room'.
Proof.
  intros H. destruct (calculate_room_positive room H) as (w & len & E).
  by eexists.
Qed.

Lemma sum_sqft_map (l : list Room.t) :
  sum_sqft l = foldr Z.add 0 (map Room.sqft l).
Proof. unfold sum_sqft. induction l as [|r l IH]; simpl; congruence. Qed.

Lemma sum_sqft_app (l1 l2 : list Room.t) :
  sum_sqft (l1 ++ l2) = sum_sqft l1 + sum_sqft l2.
Proof. unfold sum_sqft. induction l1 as [|r l1 IH]; simpl; lia. Qed.

Lemma sum_sqft_nonneg (l : list Room.t) :
  Forall positive_area l → 0 ≤ sum_sqft l.
Proof.
  unfold sum_sqft, positive_area. induction 1; simpl; lia.
Qed.

Lemma sum_sqft_elem (l : list Room.t) (r : Room.t) :
  Forall positive_area l → r ∈ l → Room.sqft r ≤ sum_sqft l.
Proof.
  intros H Hr. apply list_elem_of_split in Hr as (l1 & l2 & ->).
  apply Forall_app in H as [H1 H2]. apply Forall_cons in H2 as [_ H2].
  apply sum_sqft_nonneg in H1, H2. rewrite sum_sqft_app.
  unfold sum_sqft in *. simpl. lia.
Qed.

(** The dimension calculator succeeds on rooms of positive area, and changes
    dimensions only. *)
Lemma _calculate_room_dimensions_ok (self : t) :
  Forall positive_area (rooms self) →
  ∃ self', _calculate_room_dimensions self = Ok self'.
Proof.
  intros H. unfold _calculate_room_dimensions.
  destruct (for_each_ok calculate_room (rooms self)) as [l' E].
  { eapply Forall_impl; [exact H|]. apply calculate_room_ok. }
  rewrite E. by eexists.
Qed.

Lemma _calculate_room_dimensions_inv (self self' : t) :
  _calculate_room_dimensions self = Ok self' →
  requirements self' = requirements self
  ∧ map Room.sqft (rooms self') = map Room.sqft (rooms self).
Proof.
  unfold _calculate_room_dimensions. intros H.
  destruct (for_each calculate_room (rooms self)) as [l'|] eqn:E; [|done].
  cbn [mbind result_bind] in H. injection H as <-. split; [done|].
  cbn [rooms set_rooms]. apply for_each_inv in E.
  induction E as [|r r' l l' Hr _ IH]; [done|]. simpl.
  rewrite IH. f_equal. apply calculate_room_inv in Hr. by rewrite Hr.
Qed.

Lemma _arrange_rooms_requirements (self self' : t) :
  _arrange_rooms self = Ok self' →
  requirements self' = requirements self
  ∧ map Room.sqft (rooms self') = map Room.sqft (rooms self).
Proof.
  intros H. destruct (decide (rooms self = [])) as [Er|Er].
  { unfold _arrange_rooms in H. rewrite Er in H. by injection H as <-. }
  destruct (_arrange_rooms_inv self self' Er H) as (R & _ & _ & E).
  split; [done|].
  assert (Eu : map unplaced (rooms self') = map unplaced
            (map (scaling (total_sqft_of self) (sum_sqft (rooms self)))
                 (rooms self))).
  { rewrite E. apply layout_unplaced. }
  apply (f_equal (map Room.sqft)) in Eu.
  rewrite !map_map in Eu.
  transitivity (map (λ r, Room.sqft (unplaced r)) (rooms self')); [done|].
  rewrite Eu. apply map_ext. intros r. unfold scaling. by destruct (_ <? _).
Qed.

Lemma _arrange_rooms_no_zero_division (self : t) :
  0 < sum_sqft (rooms self) → _arrange_rooms self ≠ Raise ZeroDivisionError.
Proof.
  intros Hs. destruct (decide (rooms self = [])) as [Er|Er].
  { unfold _arrange_rooms. by rewrite Er. }
  rewrite _arrange_rooms_nonempty by done. cbv zeta.
  unfold py_div.
  destruct (Qeq_bool (inject_Z (sum_sqft (rooms self))) 0) eqn:E0.
  { apply Qeq_bool_iff in E0. unfold Qeq in E0. simpl in E0. lia. }
  unfold math_sqrt.
  repeat (match goal with
          | |- context [if ?b then _ else _] => destruct b
          end; cbn [mbind result_bind]); done.
Qed.

(** What a successful generation returns. *)
Lemma generate_floor_plan_inv (self self' : t) (l : list Room.t) :
  generate_floor_plan self = Ok (l, self') →
  l = rooms self' ∧ requirements self' = requirements self
  ∧ map Room.sqft (rooms self')
    = map Room.sqft (rooms (build_inventory self)).
Proof.
  unfold generate_floor_plan. intros H.
  destruct (_calculate_room_dimensions (build_inventory self)) as [s1|] eqn:E1;
    [|done].
  cbn [mbind result_bind] in H.
  destruct (_arrange_rooms s1) as [s2|] eqn:E2; [|done].
  cbn [mbind result_bind] in H. injection H as <- <-.
  apply _calculate_room_dimensions_inv in E1 as [R1 S1].
  apply _arrange_rooms_requirements in E2 as [R2 S2].
  destruct (build_inventory_parts self) as [R0 _].
  split; [done|]. split; congruence.
Qed.

Lemma inventory_sum (self : t) :
  Forall positive_area (rooms (build_inventory self))
  ∧ 1130 ≤ sum_sqft (rooms (build_inventory self)).
Proof.
  destruct (build_inventory_parts self)
    as (_ & beds & baths & garage & special & circ & E & M1 & M2 & M3 & P).
  split; [done|]. rewrite E in P |- *.
  repeat (apply Forall_app in P as [? P]).
  rewrite !sum_sqft_app.
  pose proof (sum_sqft_elem beds _ ltac:(done) M1).
  pose proof (sum_sqft_elem baths _ ltac:(done) M2).
  pose proof (sum_sqft_elem circ _ ltac:(done) M3).
  pose proof (sum_sqft_nonneg garage ltac:(done)).
  pose proof (sum_sqft_nonneg special ltac:(done)).
  change (sum_sqft [kitchen; dining_room]) with 350.
  change (sum_sqft [living_room]) with 300.
  change (Room.sqft master_bedroom) with 300 in *.
  change (Room.sqft master_bathroom) with 100 in *.
  change (Room.sqft foyer) with 80 in *.
  lia.
Qed.





Example pipeline_negative_counts :
  ∃ l, pipeline req_negative = Ok (l, (6783, 29272))
    ∧ summary l =
      [ ("Master Bedroom", "master_bedroom", 2);
        ("Master Bathroom", "master_bathroom", 1);
        ("Powder Room", "half_bathroom", 0); ("Kitchen", "kitchen", 2);
        ("Dining Room", "dining_room", 1); ("Living Room", "living_room", 3);
        ("Gym", "gym", 1); ("Foyer", "foyer", 0) ].
Proof. eexists. split; vm_compute; reflexivity. Qed.

(** C6 as stated fails: for a target area of 0 the width is 0, and the
    length is the area divided by that width. *)
Lemma C6_zero_area_raises :
  ¬ (∀ room : Room.t,
       Room.sqft room = 0 →
       ∃ room', calculate_room room = Ok room'
                ∧ Room.width room' = 0 ∧ Room.length room' = 0).
Proof.
  intros H. destruct (H closet) as (room' & E & _); [reflexivity|].
  vm_compute in E. discriminate E.
Qed.

Lemma room_width_zero (room : Room.t) :
  Room.sqft room = 0 → room_width room = Ok 0.
Proof.
  intros H. unfold room_width, area_mm2. rewrite H.
  destruct (aspect_ratio_cases (Room.room_type room)) as [E|[E|[E|E]]];
    rewrite E; reflexivity.
Qed.

(** C6, as the code has it. For a room of target area 0 the dimension
    calculator computes the width 0 and then raises [ZeroDivisionError] at
    [area_mm2 / width], for the room and for every store in which only rooms
    of positive area precede it; the inventory builder emits no such room;
    and the packer, a single pass over the store, returns normally on a store
    that holds the room, whatever its extents, when the requested area is not
    negative and the summed area is positive. *)
Theorem C6_zero_area (room : Room.t) :
  Room.sqft room = 0 →
  room_width room = Ok 0
  ∧ calculate_room room = Raise ZeroDivisionError
  ∧ (∀ req l1 l2,
       Forall positive_area l1 →
       _calculate_room_dimensions (Build req (l1 ++ room :: l2))
       = Raise ZeroDivisionError)
  ∧ (∀ self, room ∉ rooms (build_inventory self))
  ∧ (∀ self,
       room ∈ rooms self → 0 ≤ total_sqft_of self →
       0 < sum_sqft (rooms self) →
       ∃ self', _arrange_rooms self = Ok self'
                ∧ length (rooms self') = length (rooms self)).
Proof.
  intros H0. pose proof (room_width_zero room H0) as Ew.
  assert (Ec : calculate_room room = Raise ZeroDivisionError).
  { unfold calculate_room. rewrite Ew. reflexivity. }
  split; [done|]. split; [done|]. split; [|split].
  - intros req l1 l2 Hl1. unfold _calculate_room_dimensions.
    cbn [rooms]. rewrite (for_each_raise _ _ _ _ ZeroDivisionError); [done| |done].
    eapply Forall_impl; [exact Hl1|]. apply calculate_room_ok.
  - intros self Hin. destruct (inventory_sum self) as [P _].
    rewrite Forall_forall in P. specialize (P room Hin).
    unfold positive_area in P. lia.
  - intros self _ Ht Hs. destruct (_arrange_rooms_ok self) as [self' E];
      [done|done|].
    exists self'. split; [done|].
    apply _arrange_rooms_requirements in E as [_ E].
    apply (f_equal length) in E. by rewrite !length_map in E.
Qed.

(** C6 on the closet, alone and in a store with the den. *)
Lemma C6_zero_area_witness :
  Room.sqft closet = 0
  ∧ calculate_room closet = Raise ZeroDivisionError
  ∧ ∃ self',
      _arrange_rooms (Build HouseRequirements.init [den; closet]) = Ok self'
      ∧ length (rooms self') = 2%nat.
Proof.
  split; [reflexivity|].
  destruct (C6_zero_area closet) as (_ & Ec & _ & _ & Ha); [reflexivity|].
  split; [exact Ec|].
  apply (Ha (Build HouseRequirements.init [den; closet]));
    [by right; left|discriminate|reflexivity].
Defined.



(** C10. Every inventory holds the six unconditional rooms (master bedroom,
    master bathroom, kitchen, dining room, living room, foyer); so it is not
    empty, its nominal areas sum to at least 1130 sqft, the generation never
    divides by zero, and after a generation the room list is not empty, so
    the footprint query does not take its default branch. *)
Theorem C10_six_rooms (self : t) :
  let inventory := rooms (build_inventory self) in
  (master_bedroom ∈ inventory ∧ master_bathroom ∈ inventory
   ∧ kitchen ∈ inventory ∧ dining_room ∈ inventory
   ∧ living_room ∈ inventory ∧ foyer ∈ inventory)
  ∧ (6 ≤ length inventory)%nat
  ∧ 1130 ≤ sum_sqft inventory
  ∧ generate_floor_plan self ≠ Raise ZeroDivisionError
  ∧ ∀ l self',
      generate_floor_plan self = Ok (l, self') →
      l = rooms self' ∧ rooms self' ≠ []
      ∧ sum_sqft (rooms self') = sum_sqft inventory
      ∧ ∃ r l' max_x max_y,
          rooms self' = r :: l'
          ∧ get_house_dimensions self' = (max_x + 1000, max_y + 1000)
          ∧ is_max max_x (map (λ r, Room.x r + Room.length r) (r :: l'))
          ∧ is_max max_y (map (λ r, Room.y r + Room.width r) (r :: l')).
Proof.
  intros inventory.
  destruct (build_inventory_parts self)
    as (_ & beds & baths & garage & special & circ & E & M1 & M2 & M3 & P).
  destruct (inventory_sum self) as [_ S]. fold inventory in E, P, S.
  assert (Hlen : (6 ≤ length inventory)%nat).
  { rewrite E, !length_app.
    apply list_elem_of_split in M1 as (? & ? & ->).
    apply list_elem_of_split in M2 as (? & ? & ->).
    apply list_elem_of_split in M3 as (? & ? & ->).
    rewrite !length_app. simpl. lia. }
  split.
  { rewrite E. rewrite !elem_of_app.
    split_and!; auto 10 using list_elem_of_here, list_elem_of_further. }
  split; [done|]. split; [done|]. split.
  - unfold generate_floor_plan.
    destruct (_calculate_room_dimensions_ok _ P) as [s1 E1].
    rewrite E1. cbn [mbind result_bind].
    apply _calculate_room_dimensions_inv in E1 as [_ S1].
    pose proof (_arrange_rooms_no_zero_division s1) as Hz.
    destruct (_arrange_rooms s1) as [s2|e]; [done|].
    cbn [mbind result_bind]. intros [= ->]. apply Hz; [|done].
    rewrite sum_sqft_map, S1, <- sum_sqft_map. fold inventory. lia.
  - intros l self' H.
    destruct (generate_floor_plan_inv _ _ _ H) as (-> & _ & S').
    fold inventory in S'.
    assert (Hl : length (rooms self') = length inventory).
    { apply (f_equal length) in S'. by rewrite !length_map in S'. }
    split; [done|].
    destruct (rooms self') as [|r l'] eqn:Er; [simpl in Hl; lia|].
    split; [done|]. split.
    { by rewrite !sum_sqft_map, S'. }
    exists r, l'. unfold get_house_dimensions. rewrite Er.
    eexists _, _. split; [done|]. split; [done|].
    split; apply py_max_spec.
Qed.

(** ** The exact model and the doubles *)

(** On every area of the catalog the doubles give the dimensions of the
    exact model. *)
Lemma binary64_catalog (k name : string) (v windows : Z) :
  room_sizes !! k = Some v →
  Binary64.calculate_room (new_room name v k windows)
  = calculate_room (new_room name v k windows).
Proof.
  intros H. apply elem_of_list_to_map_2 in H.
  repeat (apply elem_of_cons in H as [[= -> ->]|H]; [vm_compute; reflexivity|]).
  by apply elem_of_nil in H.
Qed.

(** So they do on garages of up to 734 cars. *)
Lemma binary64_garage (cars : Z) :
  1 ≤ cars ≤ 734 →
  Binary64.room_width (garage cars) = room_width (garage cars)
  ∧ ∀ w, room_width (garage cars) = Ok w →
         Binary64.room_length (garage cars) w = room_length (garage cars) w.
Proof.
  intros Hc.
  assert (Hall : forallb
            (λ cars,
               let room := new_room "" (250 * cars) "garage" 0 in
               match Binary64.room_width room, room_width room with
               | Ok w, Ok w' =>
                   (w =? w')
                   && match Binary64.room_length room w, room_length room w with
                      | Ok l, Ok l' => l =? l'
                      | _, _ => false
                      end
               | _, _ => false
               end)
            (seqZ 1 734) = true) by (vm_compute; reflexivity).
  rewrite forallb_forall in Hall.
  specialize (Hall cars). rewrite <- list_elem_of_In, elem_of_seqZ in Hall.
  specialize (Hall ltac:(lia)). cbv zeta in Hall.
  change (Binary64.room_width (garage cars))
    with (Binary64.room_width (new_room "" (250 * cars) "garage" 0)).
  change (room_width (garage cars))
    with (room_width (new_room "" (250 * cars) "garage" 0)).
  destruct (Binary64.room_width _) as [w|]; [|done].
  destruct (room_width _) as [w'|]; [|done].
  apply andb_true_iff in Hall as [Ew Hl]. apply Z.eqb_eq in Ew. subst w'.
  split; [done|]. intros ? [= <-].
  change (Binary64.room_length (garage cars) w)
    with (Binary64.room_length (new_room "" (250 * cars) "garage" 0) w).
  change (room_length (garage cars) w)
    with (room_length (new_room "" (250 * cars) "garage" 0) w).
  destruct (Binary64.room_length _ _) as [l|]; [|done].
  destruct (room_length _ _) as [l'|]; [|done].
  apply Z.eqb_eq in Hl. by subst.
Qed.

(** At 735 cars the area over the aspect ratio is the square of 106680, and
    the double square root falls just below it. *)
Example binary64_garage_735 :
  summary_dimensions (calculate_room (garage 735)) = Ok (106680, 160020)
  ∧ summary_dimensions (Binary64.calculate_room (garage 735))
    = Ok (106679, 160021).
Proof. split; vm_compute; reflexivity. Qed.

(** The packer's numbers in the two examples above. *)
Example binary64_packer :
  Binary64.max_row_width 3000 = Ok (max_row_width 3000)
  ∧ Binary64.max_row_width 2000 = Ok (max_row_width 2000)
  ∧ (s ← Binary64.scale_factor 3000 2500;
     w ← Binary64.scaled s 12443; l ← Binary64.scaled s 18665; Ok (w, l))
    = Ok (13630, 20446)
  ∧ (s ← Binary64.scale_factor 2000 300;
     w ← Binary64.scaled s 3274; l ← Binary64.scaled s 4256; Ok (w, l))
    = Ok (8453, 10988).
Proof. repeat split; vm_compute; reflexivity. Qed.

(** * Further properties *)

(** ** The builder, step by step *)

Lemma _add_special_rooms_rooms (self : t) :
  rooms (_add_special_rooms self)
  = rooms self ++ special_rooms_of (requirements self)
  ∧ requirements (_add_special_rooms self) = requirements self.
Proof.
  unfold _add_special_rooms, special_rooms_of.
  generalize (HouseRequirements.special_rooms (requirements self)).
  intros l. revert self. induction l as [|tag l IH]; intros self.
  - cbn. by rewrite app_nil_r.
  - cbn [foldl omap list_omap]. destruct (room_sizes !! tag) as [size|].
    + destruct (IH (append (new_room (title (replace "_" " " tag)) size tag 1)
                           self)) as [E R].
      rewrite E, R. cbn [rooms append set_rooms requirements fmap option_fmap
                         option_map].
      by rewrite <- app_assoc.
    + apply IH.
Qed.

Lemma _add_bathrooms_parts (self : t) :
  rooms (_add_bathrooms self)
  = rooms self ++ bathroom_rooms (requirements self).
Proof. apply _add_bathrooms_rooms. Qed.

Lemma _add_step_requirements (self : t) :
  requirements (_add_bedrooms self) = requirements self
  ∧ requirements (_add_bathrooms self) = requirements self
  ∧ requirements (_add_garage self) = requirements self
  ∧ requirements (_add_circulation_spaces self) = requirements self.
Proof.
  split; [done|]. split; [|split].
  - by destruct (_add_bathrooms_appends self) as (? & [? _] & _).
  - unfold _add_garage. by destruct (0 <? _).
  - unfold _add_circulation_spaces.
    cbn [rooms append set_rooms requirements]. by destruct (3 <=? _).
Qed.

Lemma build_inventory_rooms (self : t) :
  let req := requirements self in
  rooms (build_inventory self)
  = bedroom_rooms req ++ bathroom_rooms req
    ++ [kitchen; dining_room; living_room]
    ++ garage_rooms req ++ special_rooms_of req ++ circulation_rooms req.
Proof.
  intros req. unfold build_inventory.
  set (s0 := set_rooms [] self).
  assert (R0 : requirements s0 = req) by done.
  destruct (_add_step_requirements s0) as (R1 & _).
  set (s1 := _add_bedrooms s0) in *.
  destruct (_add_step_requirements s1) as (_ & R2 & _).
  pose proof (_add_bathrooms_parts s1) as E2.
  set (s2 := _add_bathrooms s1) in *.
  destruct (_add_kitchen_appends s2) as [R3 E3].
  set (s3 := _add_kitchen s2) in *.
  destruct (_add_living_areas_appends s3) as [R4 E4].
  set (s4 := _add_living_areas s3) in *.
  destruct (_add_step_requirements s4) as (_ & _ & R5 & _).
  assert (E5 : rooms (_add_garage s4)
               = rooms s4 ++ garage_rooms (requirements s4)).
  { unfold _add_garage, garage_rooms. destruct (0 <? _); [done|].
    by rewrite app_nil_r. }
  set (s5 := _add_garage s4) in *.
  destruct (_add_special_rooms_rooms s5) as [E6 R6].
  set (s6 := _add_special_rooms s5) in *.
  assert (E7 : rooms (_add_circulation_spaces s6)
               = rooms s6 ++ circulation_rooms (requirements s6)).
  { unfold _add_circulation_spaces, circulation_rooms.
    cbn [rooms append set_rooms requirements].
    destruct (3 <=? _); cbn [rooms append set_rooms]; [|done].
    by rewrite <- app_assoc. }
  rewrite E7, E6, E5, E4, E3, E2.
  assert (E1 : rooms s1 = bedroom_rooms req) by done.
  rewrite E1.
  replace (requirements s6) with req by congruence.
  replace (requirements s5) with req by congruence.
  replace (requirements s4) with req by congruence.
  replace (requirements s1) with req by congruence.
  by rewrite <- !app_assoc.
Qed.

(** X1. The inventory is, in this order: the master bedroom and the
    numbered bedrooms; the bathrooms; kitchen, dining room and living room;
    the garage when there is one; one room per requested special tag that is
    a key of the catalog, in the order of the request; the foyer, and the
    hallway from three bedrooms on.  The rooms that the generator held
    before play no part. *)
Theorem X1_inventory_order (self : t) :
  let req := requirements self in
  rooms (build_inventory self)
  = bedroom_rooms req ++ bathroom_rooms req
    ++ [kitchen; dining_room; living_room]
    ++ garage_rooms req ++ special_rooms_of req ++ circulation_rooms req.
Proof. apply build_inventory_rooms. Qed.

Lemma special_rooms_of_types (req : HouseRequirements.t) :
  map Room.room_type (special_rooms_of req)
  = filter (λ tag, in_catalog tag = true)
           (HouseRequirements.special_rooms req).
Proof.
  unfold special_rooms_of.
  induction (HouseRequirements.special_rooms req) as [|tag l IH]; [done|].
  cbn [omap list_omap]. destruct (room_sizes !! tag) as [size|] eqn:E.
  - rewrite filter_cons_True by (unfold in_catalog; by rewrite E).
    cbn [fmap option_fmap option_map map]. by rewrite IH.
  - rewrite filter_cons_False by (unfold in_catalog; by rewrite E).
    exact IH.
Qed.

Lemma special_rooms_of_length (req : HouseRequirements.t) :
  length (special_rooms_of req)
  = length (filter (λ tag, in_catalog tag = true)
                   (HouseRequirements.special_rooms req)).
Proof. by rewrite <- special_rooms_of_types, length_map. Qed.

Lemma special_rooms_of_elem (req : HouseRequirements.t) (r : Room.t) :
  r ∈ special_rooms_of req ↔
  ∃ tag size,
    tag ∈ HouseRequirements.special_rooms req
    ∧ room_sizes !! tag = Some size ∧ r = special_room tag size.
Proof.
  unfold special_rooms_of. rewrite list_elem_of_omap. split.
  - intros (tag & Hin & H). destruct (room_sizes !! tag) as [size|] eqn:E;
      [|done].
    injection H as <-. by exists tag, size.
  - intros (tag & size & Hin & E & ->). exists tag. by rewrite E.
Qed.

(** X2. The special rooms: every requested tag that is a key of the catalog
    yields a room of that category with the catalog's area, one window and
    the tag in title case as its name; a tag that is no key yields nothing;
    and the step appends as many rooms as there are requested tags in the
    catalog, repetitions included. *)
Theorem X2_special_rooms (self : t) :
  let tags := HouseRequirements.special_rooms (requirements self) in
  ∃ added,
    rooms (_add_special_rooms self) = rooms self ++ added
    ∧ length added = length (filter (λ tag, in_catalog tag = true) tags)
    ∧ map Room.room_type added = filter (λ tag, in_catalog tag = true) tags
    ∧ (∀ r, r ∈ added →
            room_sizes !! Room.room_type r = Some (Room.sqft r)
            ∧ Room.windows r = 1
            ∧ Room.name r = title (replace "_" " " (Room.room_type r)))
    ∧ (∀ tag, room_sizes !! tag = None →
              ∀ r, r ∈ added → Room.room_type r ≠ tag).
Proof.
  intros tags. exists (special_rooms_of (requirements self)).
  split; [apply _add_special_rooms_rooms|].
  split; [apply special_rooms_of_length|]. split; [|split].
  - apply special_rooms_of_types.
  - intros r Hr. apply special_rooms_of_elem in Hr as (tag & size & _ & E & ->).
    split; [exact E|]. split; reflexivity.
  - intros tag Hn r Hr Et.
    apply special_rooms_of_elem in Hr as (tag' & size & _ & E & ->).
    change (tag' = tag) in Et. congruence.
Qed.

(** ** What the calculator and the packer leave alone *)

Lemma for_each_calculate_identity (l l' : list Room.t) :
  for_each calculate_room l = Ok l' → map identity l' = map identity l.
Proof.
  intros H. apply for_each_inv in H.
  induction H as [|r r' l l' Hr _ IH]; [done|]. simpl. rewrite IH.
  f_equal. apply calculate_room_inv in Hr. by rewrite Hr.
Qed.

Lemma scaling_identity (t s : Z) (r : Room.t) :
  identity (scaling t s r) = identity r.
Proof. unfold scaling. by destruct (_ <? _). Qed.

Lemma _arrange_rooms_identity (self self' : t) :
  _arrange_rooms self = Ok self' →
  map identity (rooms self') = map identity (rooms self).
Proof.
  intros H. destruct (decide (rooms self = [])) as [Er|Er].
  { unfold _arrange_rooms in H. rewrite Er in H. by injection H as <-. }
  destruct (_arrange_rooms_inv self self' Er H) as (_ & _ & _ & E).
  apply (f_equal (map unplaced)) in E. rewrite layout_unplaced in E.
  apply (f_equal (map (Room.set_dimensions 0 0))) in E.
  rewrite !map_map in E.
  transitivity (map (λ r, Room.set_dimensions 0 0 (unplaced r)) (rooms self'));
    [done|].
  rewrite E. apply map_ext. intros r.
  apply (scaling_identity (total_sqft_of self) (sum_sqft (rooms self)) r).
Qed.

Lemma generate_floor_plan_identity (self self' : t) (l : list Room.t) :
  generate_floor_plan self = Ok (l, self') →
  map identity l = map identity (rooms (build_inventory self)).
Proof.
  unfold generate_floor_plan. intros H.
  destruct (_calculate_room_dimensions (build_inventory self)) as [s1|] eqn:E1;
    [|done].
  cbn [mbind result_bind] in H.
  destruct (_arrange_rooms s1) as [s2|] eqn:E2; [|done].
  cbn [mbind result_bind] in H. injection H as <- <-.
  apply _arrange_rooms_identity in E2.
  unfold _calculate_room_dimensions in E1.
  destruct (for_each calculate_room (rooms (build_inventory self)))
    as [l1|] eqn:E0; [|done].
  cbn [mbind result_bind] in E1. injection E1 as <-.
  apply for_each_calculate_identity in E0. cbn [rooms set_rooms] in E2.
  by rewrite E2.
Qed.

(** X3. A generation returns the inventory in emission order, not in the
    order of placement, and changes nothing but dimensions and positions:
    name, target area, category, doors and windows of the i-th returned room
    are those of the i-th emitted room. *)
Theorem X3_generation_keeps_identity (self self' : t) (l : list Room.t) :
  generate_floor_plan self = Ok (l, self') →
  length l = length (rooms (build_inventory self))
  ∧ ∀ i r r',
      rooms (build_inventory self) !! i = Some r → l !! i = Some r' →
      Room.name r' = Room.name r ∧ Room.sqft r' = Room.sqft r
      ∧ Room.room_type r' = Room.room_type r
      ∧ Room.doors r' = Room.doors r ∧ Room.windows r' = Room.windows r.
Proof.
  intros H. apply generate_floor_plan_identity in H as E2. split.
  - apply (f_equal length) in E2. by rewrite !length_map in E2.
  - intros i r r' Hr Hr'.
    apply (f_equal (λ l, l !! i)) in E2. change map with (@fmap list _) in E2.
    rewrite !list_lookup_fmap, Hr, Hr' in E2.
    cbn [fmap option_fmap option_map] in E2.
    assert (Ei : identity r' = identity r) by congruence.
    unfold identity in Ei. injection Ei. intros. by repeat split.
Qed.

(** X3 on the example of the source. *)
Lemma X3_generation_keeps_identity_witness :
  ∃ l self',
    generate_floor_plan (init req_example) = Ok (l, self')
    ∧ length l = length (rooms (build_inventory (init req_example)))
    ∧ summary l = summary (rooms (build_inventory (init req_example))).
Proof.
  eexists _, _. split; [vm_compute; reflexivity|].
  split; [|vm_compute; reflexivity].
  eapply (X3_generation_keeps_identity (init req_example)).
  vm_compute. reflexivity.
Defined.

(** ** Counting the rooms of a plan *)

Lemma count_if_app (f : Room.t → bool) (l1 l2 : list Room.t) :
  count_if f (l1 ++ l2) = count_if f l1 + count_if f l2.
Proof. unfold count_if. rewrite filter_app, length_app. lia. Qed.

Lemma count_if_all (f : Room.t → bool) (l : list Room.t) :
  Forall (λ r, f r = true) l → count_if f l = Z.of_nat (length l).
Proof.
  unfold count_if. induction 1 as [|r l Hr _ IH]; [done|].
  rewrite filter_cons_True by done. simpl. lia.
Qed.

Lemma count_if_none (f : Room.t → bool) (l : list Room.t) :
  Forall (λ r, f r = false) l → count_if f l = 0.
Proof.
  unfold count_if. induction 1 as [|r l Hr _ IH]; [done|].
  rewrite filter_cons_False by (rewrite Hr; done). done.
Qed.

Lemma count_if_types (g : string → bool) (l l' : list Room.t) :
  map identity l = map identity l' →
  count_if (λ r, g (Room.room_type r)) l
  = count_if (λ r, g (Room.room_type r)) l'.
Proof.
  unfold count_if. revert l'.
  induction l as [|r l IH]; intros [|r' l'] H; try done.
  cbn [map] in H.
  assert (Hr : identity r = identity r') by congruence.
  assert (Hl : map identity l = map identity l') by congruence.
  specialize (IH l' Hl).
  assert (Et : Room.room_type r = Room.room_type r')
    by exact (f_equal Room.room_type Hr).
  rewrite !filter_cons, Et. destruct (decide _); cbn [length]; lia.
Qed.

Lemma no_bedroom_in_inventory (req : HouseRequirements.t) :
  Forall (λ tag, occurs_in "bedroom" tag = false)
         (HouseRequirements.special_rooms req) →
  Forall (λ r, occurs_in "bedroom" (Room.room_type r) = false)
         (bathroom_rooms req ++ [kitchen; dining_room; living_room]
          ++ garage_rooms req ++ special_rooms_of req
          ++ circulation_rooms req).
Proof.
  intros Hs. unfold bathroom_rooms. repeat (apply Forall_app; split).
  - by repeat constructor.
  - destruct (has_jack_and_jill req); by repeat constructor.
  - apply Forall_fmap, Forall_forall. by intros.
  - apply Forall_fmap, Forall_forall. by intros.
  - by repeat constructor.
  - unfold garage_rooms. destruct (0 <? _); by repeat constructor.
  - apply Forall_forall. intros r Hr.
    apply special_rooms_of_elem in Hr as (tag & size & Hin & _ & ->).
    rewrite Forall_forall in Hs. exact (Hs tag Hin).
  - unfold circulation_rooms. destruct (3 <=? _); by repeat constructor.
Qed.

(** X4. The check of the repository's test: when no requested special tag
    contains "bedroom", the number of generated rooms whose category
    contains "bedroom" is the requested bedroom count, and 1 (the master
    bedroom alone) when that count is 0 or negative. *)
Theorem X4_bedroom_count (self self' : t) (l : list Room.t) :
  Forall (λ tag, occurs_in "bedroom" tag = false)
         (HouseRequirements.special_rooms (requirements self)) →
  generate_floor_plan self = Ok (l, self') →
  count_if (λ r, occurs_in "bedroom" (Room.room_type r)) l
  = Z.max (HouseRequirements.bedrooms (requirements self)) 1.
Proof.
  intros Hs H. apply generate_floor_plan_identity in H.
  rewrite (count_if_types (occurs_in "bedroom") _ _ H).
  rewrite build_inventory_rooms, count_if_app.
  rewrite (count_if_none _ _ (no_bedroom_in_inventory _ Hs)).
  rewrite count_if_all.
  - unfold bedroom_rooms. cbn [length]. rewrite length_map.
    rewrite Nat2Z.inj_succ, length_seqZ_max. lia.
  - constructor; [done|]. apply Forall_fmap, Forall_forall. by intros.
Qed.

(** X4 on the example of the source: four bedrooms. *)
Lemma X4_bedroom_count_witness :
  ∃ l self',
    Forall (λ tag, occurs_in "bedroom" tag = false)
           (HouseRequirements.special_rooms req_example)
    ∧ generate_floor_plan (init req_example) = Ok (l, self')
    ∧ count_if (λ r, occurs_in "bedroom" (Room.room_type r)) l = 4.
Proof.
  eexists _, _.
  assert (Hs : Forall (λ tag, occurs_in "bedroom" tag = false)
                      (HouseRequirements.special_rooms req_example))
    by (repeat constructor).
  split; [exact Hs|]. split; [vm_compute; reflexivity|].
  eapply (X4_bedroom_count (init req_example)); [exact Hs|].
  vm_compute. reflexivity.
Defined.

(** X5. The number of rooms of an inventory: the six unconditional rooms,
    the numbered bedrooms, the jack-and-jill bathroom, the numbered
    bathrooms, the powder room, the garage, the hallway, and one room per
    requested special tag of the catalog. *)
Theorem X5_inventory_size (self : t) :
  let req := requirements self in
  Z.of_nat (length (rooms (build_inventory self)))
  = 6 + Z.max (HouseRequirements.bedrooms req - 1) 0
    + (if has_jack_and_jill req then 1 else 0)
    + Z.max (numbered_bathrooms req) 0
    + (if has_powder_room req then 1 else 0)
    + (if 0 <? HouseRequirements.garage_cars req then 1 else 0)
    + (if 3 <=? HouseRequirements.bedrooms req then 1 else 0)
    + Z.of_nat (length (filter (λ tag, in_catalog tag = true)
                               (HouseRequirements.special_rooms req))).
Proof.
  intros req. rewrite build_inventory_rooms. fold req.
  rewrite !length_app, special_rooms_of_length.
  unfold bedroom_rooms, bathroom_rooms, garage_rooms, circulation_rooms.
  rewrite !length_app. cbn [length]. rewrite !length_map.
  rewrite !Nat2Z.inj_add, !Nat2Z.inj_succ, !length_seqZ_max.
  destruct (has_jack_and_jill req), (has_powder_room req),
    (0 <? HouseRequirements.garage_cars req),
    (3 <=? HouseRequirements.bedrooms req); cbn [length]; lia.
Qed.

(** X6. Every room of an inventory has a category of the catalog, and its
    target area is the catalog's, except for the garage of [_add_garage],
    whose area is the catalog's 250 sqft per car. *)
Theorem X6_catalog_areas (self : t) (r : Room.t) :
  r ∈ rooms (build_inventory self) →
  room_sizes !! Room.room_type r = Some (Room.sqft r)
  ∨ (Room.room_type r = "garage"
     ∧ 0 < HouseRequirements.garage_cars (requirements self)
     ∧ Room.sqft r = 250 * HouseRequirements.garage_cars (requirements self)).
Proof.
  rewrite build_inventory_rooms. set (req := requirements self).
  rewrite !elem_of_app.
  unfold bedroom_rooms, bathroom_rooms, garage_rooms, circulation_rooms.
  rewrite !elem_of_app, !elem_of_cons, !list_elem_of_fmap.
  intros [H|[H|[H|[H|[H|H]]]]].
  - destruct H as [->|(i & -> & _)]; by left.
  - destruct H as [[->|H]|[H|[(i & -> & _)|(i & -> & _)]]]; try by left.
    + by apply elem_of_nil in H.
    + destruct (has_jack_and_jill req); [|by apply elem_of_nil in H].
      apply list_elem_of_singleton in H as ->. by left.
  - destruct H as [->|[->|[->|H]]]; try by left. by apply elem_of_nil in H.
  - destruct (0 <? HouseRequirements.garage_cars req) eqn:E;
      [|by apply elem_of_nil in H].
    apply list_elem_of_singleton in H as ->. apply Z.ltb_lt in E. by right.
  - apply special_rooms_of_elem in H as (tag & size & _ & E & ->). by left.
  - destruct H as [->|H]; [by left|].
    destruct (3 <=? _); [|by apply elem_of_nil in H].
    apply list_elem_of_singleton in H as ->. by left.
Qed.

(** X6 on the garage of the example of the source. *)
Lemma X6_catalog_areas_witness :
  garage 3 ∈ rooms (build_inventory (init req_example))
  ∧ room_sizes !! "garage" = Some 250 ∧ Room.sqft (garage 3) = 250 * 3.
Proof.
  assert (Hin : garage 3 ∈ rooms (build_inventory (init req_example))).
  { apply (bool_decide_unpack
             (garage 3 ∈ rooms (build_inventory (init req_example)))).
    vm_compute. exact I. }
  split; [exact Hin|]. split; [reflexivity|].
  destruct (X6_catalog_areas (init req_example) (garage 3) Hin)
    as [E|(_ & _ & E)]; [|exact E].
  vm_compute in E. discriminate E.
Defined.

(** ** Outcomes of the dimension calculator *)





Lemma Qlt_sub_add (a b c : Q) : (a - b < c)%Q → (a < c + b)%Q.
Proof.
  intros H. apply (Qplus_lt_l _ _ (- b)).
  setoid_replace (c + b + - b)%Q with c using relation Qeq by ring.
  exact H.
Qed.

Lemma aspect_ratio_ge_1 (rt : string) : (1 <= aspect_ratio rt)%Q.
Proof.
  destruct (aspect_ratio_cases rt) as [E|[E|[E|E]]]; rewrite E;
    by intros ?.
Qed.

Lemma calculate_room_aspect (room room' : Room.t) :
  0 < Room.sqft room →
  calculate_room room = Ok room' →
  0 < Room.width room' ∧ Room.width room' ≤ Room.length room'
  ∧ (aspect_ratio (Room.room_type room) * inject_Z (Room.width room')
     < inject_Z (Room.length room' + 1))%Q.
Proof.
  intros Hs H.
  destruct (room_width_spec room Hs) as (w & Ew & Hw & Hlo & _).
  destruct (room_length_spec room w) as (l & El & _ & _ & Hlt); [lia|done|].
  unfold calculate_room in H. rewrite Ew in H. cbn [mbind result_bind] in H.
  rewrite El in H. cbn [mbind result_bind] in H. injection H as <-.
  cbn [Room.width Room.length Room.set_dimensions].
  destruct (aspect_ratio_bounds (Room.room_type room)) as [Hr0 _].
  pose proof (aspect_ratio_ge_1 (Room.room_type room)) as Hr1.
  set (r := aspect_ratio (Room.room_type room)) in *.
  set (A := area_mm2 room) in *.
  assert (Hw0 : (0 < inject_Z w)%Q) by (unfold Qlt; simpl; lia).
  apply Qdiv_le_mult in Hlo; [|done].
  assert (Hup : (A < inject_Z w * inject_Z (l + 1))%Q).
  { setoid_replace (inject_Z w * inject_Z (l + 1))%Q
      with (inject_Z w + inject_Z (w * l))%Q using relation Qeq
      by (rewrite inject_Z_plus, inject_Z_mult; ring).
    by apply Qlt_sub_add. }
  assert (Hrw : (r * inject_Z w < inject_Z (l + 1))%Q).
  { apply (Qmult_lt_l _ _ (inject_Z w)); [done|].
    eapply Qle_lt_trans; [|exact Hup].
    setoid_replace (inject_Z w * (r * inject_Z w))%Q
      with (inject_Z w * inject_Z w * r)%Q using relation Qeq by ring.
    exact Hlo. }
  split; [done|]. split; [|done].
  assert (Hwl : (inject_Z w < inject_Z (l + 1))%Q).
  { eapply Qle_lt_trans; [|exact Hrw].
    rewrite <- (Qmult_1_l (inject_Z w)) at 1.
    apply Qmult_le_compat_r; [done|by apply Qlt_le_weak]. }
  rewrite <- Zlt_Qlt in Hwl. lia.
Qed.



(** ** Outcomes of the packer *)




(** ** Rows of the layout *)

Lemma place_rows (mw : Z) (c : cursor) (room : Room.t) :
  cursor_ok c → 0 ≤ Room.length room →
  let c' := (place mw c room).1 in
  let room' := (place mw c room).2 in
  Room.width room' ≤ row_height c'
  ∧ (current_y c' = current_y c ∧ row_height c ≤ row_height c'
     ∨ current_y c' = current_y c + row_height c + 200)
  ∧ (Room.x room' = 0 ∨ Room.x room' + Room.length room' ≤ mw)
  ∧ unplaced room' = unplaced room.
Proof.
  intros (Hx & Hy & Hh) Hl. unfold place.
  destruct (mw <? current_x c + Room.length room) eqn:E1;
    destruct (0 <? current_x c) eqn:E2; cbn;
    try apply Z.ltb_ge in E1; try apply Z.ltb_ge in E2;
    repeat split; try lia; try reflexivity.
  all: right; lia.
Qed.

Lemma layout_seq_unplaced (mw : Z) (l : list Room.t) (c : cursor) :
  map unplaced (layout_seq mw c l) = map unplaced l.
Proof.
  revert c. induction l as [|room l IH]; intros c; [done|].
  cbn [layout_seq]. pose proof (place_unplaced mw c room) as Hp.
  destruct (place mw c room) as [c' room']. cbn [snd] in Hp.
  cbn [map]. by rewrite Hp, IH.
Qed.

(** The sequential layout, row by row: a room placed earlier lies to the
    left in the same row or in a row above, 200 mm away, and comes first in
    row-major order. *)
Lemma layout_seq_rows (mw : Z) (l : list Room.t) (c : cursor) :
  cursor_ok c → Forall (λ r, 0 ≤ Room.length r) l →
  Forall (λ r, placed_after c r ∧ in_rows mw c r) (layout_seq mw c l)
  ∧ ForallOrdPairs (λ a b, precedes a b ∧ before a b) (layout_seq mw c l).
Proof.
  revert c. induction l as [|room l IH]; intros c Hc Hl.
  { split; constructor. }
  apply Forall_cons in Hl as [Hr Hl].
  pose proof (place_spec mw c room Hc Hr) as Hp.
  pose proof (place_rows mw c room Hc Hr) as Hq. cbv zeta in Hp, Hq.
  cbn [layout_seq]. destruct (place mw c room) as [c' room'].
  cbn [fst snd] in Hp, Hq.
  destruct Hp as (Hc' & Ha & El & Ey & Ex & Hy & Hx).
  destruct Hq as (Hw & Hrow & Hb & _).
  destruct (IH c' Hc' Hl) as [IHa IHp].
  destruct Hc as (? & ? & ?). destruct Hc' as (? & ? & ?).
  split.
  - constructor.
    + split; [done|]. split; [|done]. destruct Hrow as [[? ?]|?]; lia.
    + eapply Forall_impl; [exact IHa|].
      unfold placed_after, in_rows. intros r ((? & ? & ?) & Hrw & ?).
      split; [|split; [|done]]; destruct Hrow as [[? ?]|?]; lia.
  - constructor; [|done]. eapply Forall_impl; [exact IHa|].
    unfold placed_after, in_rows, precedes, before.
    intros r ((? & ? & Hsame) & [Hr1|Hr1] & _).
    + specialize (Hsame Hr1). split; [left|right]; lia.
    + split; [right|left]; lia.
Qed.

Lemma StronglySorted_pairs {A : Type} (R : relation A) (l : list A) :
  StronglySorted R l → ForallOrdPairs R l.
Proof. induction 1; by constructor. Qed.

Lemma ForallOrdPairs_keys {A : Type} (key : A → Z) (L l : list A) :
  map key L = map key l → ForallOrdPairs (desc key) l →
  ForallOrdPairs (λ a b, key b ≤ key a) L.
Proof.
  revert l. induction L as [|a L IH]; intros [|b l] E H; try discriminate E.
  - constructor.
  - cbn [map] in E. injection E as Ea El.
    inversion H as [|? ? Hb Hs]; subst.
    constructor; [|by eapply IH].
    change map with (@fmap list _) in El.
    apply (Forall_fmap key (λ k, k ≤ key a)). rewrite El, Ea.
    by apply Forall_fmap.
Qed.

Lemma sorted_desc_nonempty (l : list Room.t) :
  l ≠ [] → ∃ r0 rest, sorted_desc Room.sqft l = r0 :: rest
                      ∧ ∀ r, r ∈ l → Room.sqft r ≤ Room.sqft r0.
Proof.
  intros Hne.
  pose proof (sorted_desc_perm Room.sqft l) as Hp.
  pose proof (sorted_desc_sorted Room.sqft l) as Hs.
  destruct (sorted_desc Room.sqft l) as [|r0 rest].
  { by apply Permutation_nil in Hp. }
  exists r0, rest. split; [done|]. intros r Hr. rewrite <- Hp in Hr.
  apply StronglySorted_inv in Hs as [_ Hs].
  apply elem_of_cons in Hr as [->|Hr]; [done|].
  rewrite Forall_forall in Hs. exact (Hs r Hr).
Qed.

(** A successful run of the packer on rooms of non-negative length, as a
    sequential layout [L] of the scaled rooms in placement order. *)
Lemma _arrange_rooms_rows (self self' : t) :
  rooms self ≠ [] → _arrange_rooms self = Ok self' →
  Forall (λ r, 0 ≤ Room.length r) (rooms self) →
  let mw := max_row_width (total_sqft_of self) in
  let placed := map (scaling (total_sqft_of self) (sum_sqft (rooms self)))
                    (sorted_desc Room.sqft (rooms self)) in
  let L := layout_seq mw (Cursor 0 0 0) placed in
  rooms self' ≡ₚ L
  ∧ Forall (λ r, placed_after (Cursor 0 0 0) r ∧ in_rows mw (Cursor 0 0 0) r) L
  ∧ ForallOrdPairs (λ a b, precedes a b ∧ before a b) L
  ∧ ForallOrdPairs (λ a b, Room.sqft b ≤ Room.sqft a) L.
Proof.
  intros Hne H Hl mw placed L.
  split; [by apply _arrange_rooms_sorted|].
  destruct (layout_seq_rows mw placed (Cursor 0 0 0)) as [Ha Hp].
  { by unfold cursor_ok. }
  { apply Forall_fmap, Forall_forall. intros r Hr. simpl.
    apply scaling_length_nonneg. rewrite sorted_desc_perm in Hr.
    rewrite Forall_forall in Hl. by apply Hl. }
  split; [done|]. split; [done|].
  assert (Es : map Room.sqft L = map Room.sqft (sorted_desc Room.sqft (rooms self))).
  { transitivity (map (λ r, Room.sqft (unplaced r)) L); [done|].
    rewrite <- (map_map unplaced Room.sqft). unfold L.
    rewrite layout_seq_unplaced, map_map. unfold placed. rewrite map_map.
    apply map_ext. intros r. unfold scaling. by destruct (_ <? _). }
  apply (ForallOrdPairs_keys Room.sqft _ _ Es).
  apply StronglySorted_pairs, sorted_desc_sorted.
Qed.

Lemma ForallOrdPairs_impl {A : Type} (R R' : relation A) (l : list A) :
  (∀ a b, R a b → R' a b) → ForallOrdPairs R l → ForallOrdPairs R' l.
Proof.
  intros HR. induction 1 as [|a l Ha _ IH]; constructor; [|done].
  eapply Forall_impl; [exact Ha|]. apply HR.
Qed.

Lemma apart_sym (a b : Room.t) : apart a b → apart b a.
Proof. unfold apart. tauto. Qed.

(** X10. After packing rooms of non-negative length, any two rooms are
    200 mm apart: side by side in one row, the left one ending 200 mm before
    the right one starts, or in two rows, the upper one ending 200 mm above
    the lower one, whatever the widths of the rooms between them. *)
Theorem X10_rooms_apart (self self' : t) (i j : nat) (ri rj : Room.t) :
  Forall (λ r, 0 ≤ Room.length r) (rooms self) →
  _arrange_rooms self = Ok self' →
  i ≠ j → rooms self' !! i = Some ri → rooms self' !! j = Some rj →
  (Room.y ri = Room.y rj
   ∧ (Room.x ri + Room.length ri + 200 ≤ Room.x rj
      ∨ Room.x rj + Room.length rj + 200 ≤ Room.x ri))
  ∨ Room.y ri + Room.width ri + 200 ≤ Room.y rj
  ∨ Room.y rj + Room.width rj + 200 ≤ Room.y ri.
Proof.
  intros Hl H Hij Hi Hj.
  assert (Hne : rooms self ≠ []).
  { intros Er. unfold _arrange_rooms in H. rewrite Er in H.
    injection H as <-. by rewrite Er in Hi. }
  destruct (_arrange_rooms_rows self self' Hne H Hl) as (Hp & _ & Ho & _).
  apply (ForallOrdPairs_impl _ apart) in Ho;
    [|by intros a b [? _]; left].
  apply (ForallOrdPairs_perm apart _ (rooms self')) in Ho;
    [|apply apart_sym|done].
  assert (Ha : apart ri rj).
  { destruct (decide (i < j)%nat).
    - by apply (ForallOrdPairs_lookup _ _ Ho i j).
    - apply apart_sym.
      apply (ForallOrdPairs_lookup _ _ Ho j i); [lia|done..]. }
  unfold apart, precedes in Ha. lia.
Qed.

(** X11. After packing, every room starts its row at [x = 0] or ends within
    the width bound [int(sqrt(total_sqft * 92903.04) * 1.3)]: a row exceeds
    the bound only by a single room that is wider than the bound. *)
Theorem X11_row_width (self self' : t) :
  Forall (λ r, 0 ≤ Room.length r) (rooms self) →
  _arrange_rooms self = Ok self' →
  Forall (λ r, Room.x r = 0
               ∨ Room.x r + Room.length r
                 ≤ max_row_width (total_sqft_of self))
         (rooms self').
Proof.
  intros Hl H.
  destruct (decide (rooms self = [])) as [Er|Hne].
  { unfold _arrange_rooms in H. rewrite Er in H. injection H as <-.
    rewrite Er. constructor. }
  destruct (_arrange_rooms_rows self self' Hne H Hl) as (Hp & Ha & _).
  rewrite Hp. eapply Forall_impl; [exact Ha|]. by intros r (_ & _ & ?).
Qed.

Lemma layout_seq_head (mw : Z) (a : Room.t) (l : list Room.t) :
  ∃ tail, layout_seq mw (Cursor 0 0 0) (a :: l)
          = Room.set_position 0 0 a :: tail.
Proof.
  cbn [layout_seq]. unfold place. cbn [current_x current_y row_height].
  rewrite andb_false_r. by eexists.
Qed.

(** X12. After packing a non-empty store, the room that lies at the origin
    (0, 0) has the largest target area of the plan. *)
Theorem X12_largest_at_origin (self self' : t) :
  Forall (λ r, 0 ≤ Room.length r) (rooms self) →
  _arrange_rooms self = Ok self' → rooms self ≠ [] →
  ∃ r, r ∈ rooms self' ∧ Room.x r = 0 ∧ Room.y r = 0
       ∧ ∀ r', r' ∈ rooms self' → Room.sqft r' ≤ Room.sqft r.
Proof.
  intros Hl H Hne.
  destruct (_arrange_rooms_rows self self' Hne H Hl) as (Hp & _ & _ & Hs).
  destruct (sorted_desc_nonempty (rooms self) Hne) as (r0 & rest & E & _).
  rewrite E in Hp, Hs. cbn [map] in Hp, Hs.
  destruct (layout_seq_head (max_row_width (total_sqft_of self))
              (scaling (total_sqft_of self) (sum_sqft (rooms self)) r0)
              (map (scaling (total_sqft_of self) (sum_sqft (rooms self))) rest))
    as [tail Eh].
  rewrite Eh in Hp, Hs. eexists. split; [rewrite Hp; by left|].
  split; [done|]. split; [done|]. intros r' Hr'. rewrite Hp in Hr'.
  inversion Hs as [|? ? Hh _]; subst.
  apply elem_of_cons in Hr' as [->|Hr']; [done|].
  rewrite Forall_forall in Hh. exact (Hh r' Hr').
Qed.

(** X13. Rooms are placed in order of decreasing target area: of two rooms
    of a packed plan, the one with the strictly larger target area comes
    first in row-major order (in a row above, or to the left in the same
    row). *)
Theorem X13_larger_rooms_first (self self' : t) (a b : Room.t) :
  Forall (λ r, 0 ≤ Room.length r) (rooms self) →
  _arrange_rooms self = Ok self' →
  a ∈ rooms self' → b ∈ rooms self' → Room.sqft b < Room.sqft a →
  Room.y a < Room.y b ∨ (Room.y a = Room.y b ∧ Room.x a < Room.x b).
Proof.
  intros Hl H Ha Hb Hab.
  assert (Hne : rooms self ≠ []).
  { intros Er. unfold _arrange_rooms in H. rewrite Er in H.
    injection H as <-. rewrite Er in Ha. by apply elem_of_nil in Ha. }
  destruct (_arrange_rooms_rows self self' Hne H Hl) as (Hp & _ & Ho & Hs).
  rewrite Hp in Ha, Hb.
  apply list_elem_of_lookup_1 in Ha as [i Hi].
  apply list_elem_of_lookup_1 in Hb as [j Hj].
  destruct (Nat.lt_trichotomy i j) as [Hij|[->|Hji]].
  - by destruct (ForallOrdPairs_lookup _ _ Ho i j a b Hij Hi Hj) as [_ ?].
  - rewrite Hi in Hj. injection Hj as ->. lia.
  - pose proof (ForallOrdPairs_lookup _ _ Hs j i b a Hji Hj Hi) as Hc.
    cbv beta in Hc. lia.
Qed.

Example three_rooms_arranged :
  _arrange_rooms three_rooms = Ok three_rooms_packed.
Proof. reflexivity. Qed.

(** X10 on the three rooms: the den and the library side by side, the
    garage a row above the den. *)
Lemma X10_rooms_apart_witness :
  Forall (λ r, 0 ≤ Room.length r) (rooms three_rooms)
  ∧ _arrange_rooms three_rooms = Ok three_rooms_packed
  ∧ 0 + 4405 + 200 ≤ 4605
  ∧ 0 + 12879 + 200 ≤ 13079.
Proof.
  assert (Hl : Forall (λ r, 0 ≤ Room.length r) (rooms three_rooms))
    by (by repeat constructor).
  split; [exact Hl|]. split; [reflexivity|]. split.
  - destruct (X10_rooms_apart three_rooms three_rooms_packed 0%nat 2%nat
                _ _ Hl eq_refl ltac:(discriminate) eq_refl eq_refl)
      as [[_ [Hx|Hx]]|[Hy|Hy]].
    + exact Hx.
    + vm_compute in Hx. by destruct Hx.
    + vm_compute in Hy. by destruct Hy.
    + vm_compute in Hy. by destruct Hy.
  - destruct (X10_rooms_apart three_rooms three_rooms_packed 1%nat 0%nat
                _ _ Hl eq_refl ltac:(discriminate) eq_refl eq_refl)
      as [[Ey _]|[Hy|Hy]].
    + vm_compute in Ey. discriminate Ey.
    + exact Hy.
    + vm_compute in Hy. by destruct Hy.
Defined.

(** X11 on the three rooms, with a width bound of 21702 mm. *)
Lemma X11_row_width_witness :
  Forall (λ r, 0 ≤ Room.length r) (rooms three_rooms)
  ∧ _arrange_rooms three_rooms = Ok three_rooms_packed
  ∧ max_row_width 3000 = 21702
  ∧ Forall (λ r, Room.x r = 0 ∨ Room.x r + Room.length r ≤ 21702)
           (rooms three_rooms_packed).
Proof.
  assert (Hl : Forall (λ r, 0 ≤ Room.length r) (rooms three_rooms))
    by (by repeat constructor).
  split; [exact Hl|]. split; [reflexivity|]. split; [reflexivity|].
  apply (X11_row_width three_rooms three_rooms_packed Hl eq_refl).
Defined.

(** X12 on the three rooms: the garage lies at the origin. *)
Lemma X12_largest_at_origin_witness :
  Forall (λ r, 0 ≤ Room.length r) (rooms three_rooms)
  ∧ _arrange_rooms three_rooms = Ok three_rooms_packed
  ∧ ∃ r, r ∈ rooms three_rooms_packed ∧ Room.x r = 0 ∧ Room.y r = 0
         ∧ ∀ r', r' ∈ rooms three_rooms_packed → Room.sqft r' ≤ Room.sqft r.
Proof.
  assert (Hl : Forall (λ r, 0 ≤ Room.length r) (rooms three_rooms))
    by (by repeat constructor).
  split; [exact Hl|]. split; [reflexivity|].
  apply (X12_largest_at_origin three_rooms three_rooms_packed Hl eq_refl).
  discriminate.
Defined.

(** X13 on the three rooms: the garage comes before the den. *)
Lemma X13_larger_rooms_first_witness :
  Forall (λ r, 0 ≤ Room.length r) (rooms three_rooms)
  ∧ _arrange_rooms three_rooms = Ok three_rooms_packed
  ∧ (0 < 13079 ∨ (0 = 13079 ∧ 0 < 0)).
Proof.
  assert (Hl : Forall (λ r, 0 ≤ Room.length r) (rooms three_rooms))
    by (by repeat constructor).
  split; [exact Hl|]. split; [reflexivity|].
  apply (X13_larger_rooms_first three_rooms three_rooms_packed
           (Room.set_position 0 0 (Room.set_dimensions 12879 19320 garage10))
           (Room.set_position 0 13079 (Room.set_dimensions 3388 4405 den))
           Hl eq_refl).
  - right. left.
  - left.
  - reflexivity.
Defined.

(** ** Dimensions through the packer *)

Lemma floor_scaled_ge (t s w w' : Z) :
  0 < s → s < t → 0 ≤ w → floor_scaled t s w w' → w ≤ w'.
Proof.
  intros Hs Ht Hw (H0 & _ & Hhi).
  destruct (decide (w ≤ w')) as [|Hn]; [done|]. exfalso.
  assert (H1 : w' + 1 ≤ w) by lia.
  assert (H2 : (w' + 1) * (w' + 1) ≤ w * w) by nia.
  nia.
Qed.

(** The dimensions of a room after the packer are those of the scaling. *)
Lemma _arrange_rooms_dimensions (self self' : t) (i : nat) (r r' : Room.t) :
  _arrange_rooms self = Ok self' →
  rooms self !! i = Some r → rooms self' !! i = Some r' →
  0 ≤ total_sqft_of self
  ∧ unplaced r'
    = unplaced (scaling (total_sqft_of self) (sum_sqft (rooms self)) r).
Proof.
  intros H Hi Hi'.
  assert (Hne : rooms self ≠ []) by (intros E; by rewrite E in Hi).
  destruct (_arrange_rooms_inv self self' Hne H) as (_ & Ht & _ & E).
  split; [done|].
  pose proof (f_equal (λ l, l !! i) (f_equal (map unplaced) E)) as Hu.
  cbv beta in Hu. rewrite layout_unplaced in Hu.
  change map with (@fmap list _) in Hu.
  rewrite !list_lookup_fmap, Hi, Hi' in Hu.
  cbn [fmap option_fmap option_map] in Hu. congruence.
Qed.

Lemma scaling_grows (t s : Z) (r : Room.t) :
  0 < s → 0 ≤ t →
  (0 ≤ Room.width r → Room.width r ≤ Room.width (scaling t s r))
  ∧ (0 ≤ Room.length r → Room.length r ≤ Room.length (scaling t s r)).
Proof.
  intros Hs Ht. unfold scaling. destruct (s <? t) eqn:E; [|done].
  apply Z.ltb_lt in E.
  split; intros H; cbn;
    by apply (floor_scaled_ge t s), scaling_floor_scaled.
Qed.

(** X14. The packer never shrinks a room: with a positive summed area,
    the width and the length of every room after packing are at least what
    they were before. *)
Theorem X14_scaling_never_shrinks (self self' : t) (i : nat)
    (r r' : Room.t) :
  0 < sum_sqft (rooms self) →
  _arrange_rooms self = Ok self' →
  rooms self !! i = Some r → rooms self' !! i = Some r' →
  (0 ≤ Room.width r → Room.width r ≤ Room.width r')
  ∧ (0 ≤ Room.length r → Room.length r ≤ Room.length r').
Proof.
  intros Hs H Hi Hi'.
  destruct (_arrange_rooms_dimensions self self' i r r' H Hi Hi') as [Ht Eu].
  pose proof (f_equal Room.width Eu) as Ew.
  pose proof (f_equal Room.length Eu) as El.
  cbn [unplaced Room.set_position Room.width Room.length] in Ew, El.
  rewrite Ew, El. by apply scaling_grows.
Qed.

(** X14 on the den of the three rooms: 3274 by 4256 becomes 3388 by 4405. *)
Lemma X14_scaling_never_shrinks_witness :
  0 < sum_sqft (rooms three_rooms)
  ∧ _arrange_rooms three_rooms = Ok three_rooms_packed
  ∧ 3274 ≤ 3388 ∧ 4256 ≤ 4405.
Proof.
  split; [reflexivity|]. split; [reflexivity|].
  destruct (X14_scaling_never_shrinks three_rooms three_rooms_packed 0%nat
              _ _ eq_refl eq_refl eq_refl eq_refl) as [Hw Hl].
  split; [apply Hw|apply Hl]; discriminate.
Defined.

(** ** The footprint of a generated plan *)

Lemma _arrange_rooms_positive (self self' : t) :
  0 < sum_sqft (rooms self) →
  Forall (λ r, 0 < Room.width r ∧ 0 < Room.length r) (rooms self) →
  _arrange_rooms self = Ok self' →
  Forall (λ r, 0 < Room.width r ∧ 0 < Room.length r) (rooms self').
Proof.
  intros Hs Hpos H. apply Forall_lookup. intros i r' Hi'.
  assert (Hlen : length (rooms self') = length (rooms self)).
  { apply _arrange_rooms_identity in H. apply (f_equal length) in H.
    by rewrite !length_map in H. }
  destruct (lookup_lt_is_Some_2 (rooms self) i) as [r Hi].
  { rewrite <- Hlen. by eapply lookup_lt_Some. }
  destruct (_arrange_rooms_dimensions self self' i r r' H Hi Hi') as [Ht Eu].
  pose proof (f_equal Room.width Eu) as Ew.
  pose proof (f_equal Room.length Eu) as El.
  cbn [unplaced Room.set_position Room.width Room.length] in Ew, El.
  rewrite Forall_lookup in Hpos. destruct (Hpos i r Hi) as [Hw Hl].
  destruct (scaling_grows (total_sqft_of self) (sum_sqft (rooms self)) r)
    as [Gw Gl]; [done..|].
  rewrite Ew, El. split; [specialize (Gw ltac:(lia))|specialize (Gl ltac:(lia))];
    lia.
Qed.

Lemma for_each_calculate_dimensions (l l' : list Room.t) :
  Forall positive_area l → for_each calculate_room l = Ok l' →
  Forall (λ r, 0 < Room.width r ∧ 0 < Room.length r) l'.
Proof.
  intros Hp E. apply for_each_inv in E.
  induction E as [|r r' l l' Hr _ IH]; [constructor|].
  apply Forall_cons in Hp as [Hp Hl]. constructor; [|by apply IH].
  destruct (calculate_room_aspect r r' Hp Hr) as (? & ? & _). lia.
Qed.

(** X15. A generated plan lies within its footprint: every room has positive
    width and length, lies at [x >= 0] and [y >= 0], and ends 1000 mm or
    more before the length and the width that the footprint query
    returns. *)
Theorem X15_footprint_contains_plan (req : HouseRequirements.t)
    (l : list Room.t) (dims : Z * Z) (r : Room.t) :
  pipeline req = Ok (l, dims) → r ∈ l →
  0 < Room.width r ∧ 0 < Room.length r
  ∧ 0 ≤ Room.x r ∧ 0 ≤ Room.y r
  ∧ Room.x r + Room.length r + 1000 ≤ dims.1
  ∧ Room.y r + Room.width r + 1000 ≤ dims.2.
Proof.
  unfold pipeline, generate_floor_plan. intros H Hr.
  destruct (inventory_sum (init req)) as [P S].
  destruct (_calculate_room_dimensions (build_inventory (init req)))
    as [s1|] eqn:E1; [|done].
  cbn [mbind result_bind] in H.
  destruct (_arrange_rooms s1) as [s2|] eqn:E2; [|done].
  cbn [mbind result_bind fst snd] in H. injection H as <- <-.
  pose proof (_calculate_room_dimensions_inv _ _ E1) as [_ S1].
  assert (Hs1 : 0 < sum_sqft (rooms s1)).
  { rewrite sum_sqft_map, S1, <- sum_sqft_map. lia. }
  assert (D1 : Forall (λ r, 0 < Room.width r ∧ 0 < Room.length r) (rooms s1)).
  { unfold _calculate_room_dimensions in E1.
    destruct (for_each calculate_room (rooms (build_inventory (init req))))
      as [l1|] eqn:E0; [|done].
    cbn [mbind result_bind] in E1. injection E1 as <-.
    by apply (for_each_calculate_dimensions _ _ P). }
  pose proof (_arrange_rooms_positive s1 s2 Hs1 D1 E2) as D2.
  assert (Hne : rooms s1 ≠ []).
  { intros Er. rewrite Er in Hs1. by cbn in Hs1. }
  destruct (_arrange_rooms_rows s1 s2 Hne E2) as (Hp & Ha & _).
  { eapply Forall_impl; [exact D1|]. intros ? [_ ?]. lia. }
  rewrite <- Hp in Ha.
  rewrite Forall_forall in D2, Ha.
  destruct (D2 r Hr) as [Hw Hl]. destruct (Ha r Hr) as [(Hx & Hy & _) _].
  cbn [current_y] in Hy.
  split; [done|]. split; [done|]. split; [done|]. split; [done|].
  unfold get_house_dimensions.
  destruct (rooms s2) as [|r0 l0] eqn:E; [by apply elem_of_nil in Hr|].
  cbn [fst snd].
  destruct (py_max_spec (Room.x r0 + Room.length r0)
              (map (λ r, Room.x r + Room.length r) l0)) as [_ Mx].
  destruct (py_max_spec (Room.y r0 + Room.width r0)
              (map (λ r, Room.y r + Room.width r) l0)) as [_ My].
  specialize (Mx (Room.x r + Room.length r)).
  specialize (My (Room.y r + Room.width r)).
  split.
  - apply Z.add_le_mono_r, Mx.
    exact (list_elem_of_fmap_2 (λ r, Room.x r + Room.length r) _ _ Hr).
  - apply Z.add_le_mono_r, My.
    exact (list_elem_of_fmap_2 (λ r, Room.y r + Room.width r) _ _ Hr).
Qed.

(** X15 on the default requirements: the footprint is 16695 mm by
    16947 mm. *)
Lemma X15_footprint_contains_plan_witness :
  ∃ l r,
    pipeline HouseRequirements.init = Ok (l, (16695, 16947))
    ∧ r ∈ l ∧ Room.name r = "Master Bedroom"
    ∧ Room.x r + Room.length r + 1000 ≤ 16695
    ∧ Room.y r + Room.width r + 1000 ≤ 16947.
Proof.
  eexists _, _. split; [vm_compute; reflexivity|].
  split; [left|]. split; [reflexivity|].
  edestruct (X15_footprint_contains_plan HouseRequirements.init)
    as (_ & _ & _ & _ & Hx & Hy); [vm_compute; reflexivity|left|].
  split; [exact Hx|exact Hy].
Defined.

(** ** Bathrooms and total area *)

(** X16. The full bathrooms honour the request: [_add_bathrooms] emits
    [int(bathrooms)] full bathrooms (master, jack-and-jill and numbered ones
    together), and one, the master bathroom, when that number is below 1;
    the jack-and-jill bathroom takes the place of a numbered one. *)
Theorem X16_full_bathrooms (self : t) :
  ∃ added,
    rooms (_add_bathrooms self) = rooms self ++ added
    ∧ count_if is_full_bathroom added
      = Z.max (py_int (HouseRequirements.bathrooms (requirements self))) 1.
Proof.
  exists (bathroom_rooms (requirements self)).
  split; [apply _add_bathrooms_parts|].
  unfold bathroom_rooms. rewrite !count_if_app.
  rewrite (count_if_all _ [master_bathroom]) by (by repeat constructor).
  rewrite (count_if_all _ (map numbered_bathroom _))
    by (apply Forall_fmap, Forall_forall; by intros).
  rewrite (count_if_none _ (map (λ _, powder_room) _))
    by (apply Forall_fmap, Forall_forall; by intros).
  rewrite length_map, length_seqZ_max. unfold numbered_bathrooms.
  destruct (has_jack_and_jill (requirements self)) eqn:E.
  - rewrite (count_if_all _ [jack_and_jill_bathroom])
      by (by repeat constructor).
    unfold has_jack_and_jill in E. apply andb_true_iff in E as [_ E].
    apply Z.ltb_lt in E. cbn [length]. lia.
  - rewrite (count_if_none _ []) by constructor. cbn [length]. lia.
Qed.

Lemma sum_sqft_const (k : Z) (l : list Room.t) :
  Forall (λ r, Room.sqft r = k) l → sum_sqft l = k * Z.of_nat (length l).
Proof.
  unfold sum_sqft. induction 1 as [|r l Hr _ IH]; [simpl; lia|].
  cbn [foldr length]. rewrite IH, Hr. lia.
Qed.

Lemma special_rooms_of_area (req : HouseRequirements.t) :
  sum_sqft (special_rooms_of req)
  = catalog_area (HouseRequirements.special_rooms req).
Proof.
  unfold special_rooms_of, catalog_area, sum_sqft.
  induction (HouseRequirements.special_rooms req) as [|tag l IH]; [done|].
  cbn [omap list_omap foldr]. destruct (room_sizes !! tag) as [size|].
  - cbn [fmap option_fmap option_map foldr default]. by rewrite IH.
  - cbn [fmap option_fmap option_map default]. rewrite IH. lia.
Qed.

(** X17. The total target area of an inventory, which the packer compares
    with the requested area: 1130 sqft for the six unconditional rooms, 150
    per numbered bedroom, 80 for the jack-and-jill bathroom, 40 per numbered
    bathroom, 25 for the powder room, 250 per car, 50 for the hallway, and
    the catalog area of every requested special tag of the catalog. *)
Theorem X17_inventory_area (self : t) :
  let req := requirements self in
  sum_sqft (rooms (build_inventory self))
  = 1130 + 150 * Z.max (HouseRequirements.bedrooms req - 1) 0
    + (if has_jack_and_jill req then 80 else 0)
    + 40 * Z.max (numbered_bathrooms req) 0
    + (if has_powder_room req then 25 else 0)
    + 250 * Z.max (HouseRequirements.garage_cars req) 0
    + (if 3 <=? HouseRequirements.bedrooms req then 50 else 0)
    + catalog_area (HouseRequirements.special_rooms req).
Proof.
  intros req. rewrite build_inventory_rooms. fold req.
  rewrite !sum_sqft_app, special_rooms_of_area.
  unfold bedroom_rooms, bathroom_rooms, garage_rooms, circulation_rooms.
  rewrite !sum_sqft_app.
  change (sum_sqft (?r :: ?l)) with (Room.sqft r + sum_sqft l).
  rewrite (sum_sqft_const 150 (map numbered_bedroom _))
    by (apply Forall_fmap, Forall_forall; by intros).
  rewrite (sum_sqft_const 40 (map numbered_bathroom _))
    by (apply Forall_fmap, Forall_forall; by intros).
  rewrite (sum_sqft_const 25 (map (λ _, powder_room) _))
    by (apply Forall_fmap, Forall_forall; by intros).
  rewrite !length_map, !length_seqZ_max.
  change (sum_sqft [master_bathroom]) with 100.
  change (sum_sqft [kitchen; dining_room; living_room]) with 650.
  change (Room.sqft master_bedroom) with 300.
  change (Room.sqft foyer) with 80.
  destruct (has_jack_and_jill req), (has_powder_room req),
    (3 <=? HouseRequirements.bedrooms req);
    destruct (0 <? HouseRequirements.garage_cars req) eqn:Eg;
    (apply Z.ltb_lt in Eg || apply Z.ltb_ge in Eg);
    cbn [sum_sqft foldr garage new_room Room.sqft Room.set_windows Room.init
         jack_and_jill_bathroom hallway master_bathroom kitchen dining_room
         living_room]; lia.
Qed.
